(** * afqinsight.cnn: shape checks, row masking and tuner selection

    A shallow embedding of [afqinsight/cnn.py].  The module is glue around
    numpy, scikit-learn, Keras and Keras Tuner.  The array primitives the
    module calls ([np.isnan], boolean-mask indexing, [reshape], [swapaxes])
    are written out on C-ordered arrays; the learning libraries are an
    interface ([Libs]) whose operations can raise, and every theorem holds
    for every implementation of that interface. *)

From Stdlib Require Import PrimFloat ZArith String DecimalString Bool Arith Lia List.
From Stdlib Require DecimalNat DecimalFacts.
Import ListNotations.
Open Scope string_scope.
Open Scope list_scope.
Open Scope nat_scope.

Set Implicit Arguments.

(** ** Python values and exceptions *)

(** An argument as the caller passes it.  [isinstance(x, int)] holds of
    ints and of bools (bool is a subclass of int), [isinstance(x, float)]
    of floats only. *)
Inductive pyval : Type :=
| PyNone
| PyBool (b : bool)
| PyInt (n : Z)
| PyFloat (x : float)
| PyStr (s : string)
| PyObj (repr : string).

Inductive exn : Type :=
| ImportError (msg : string)
| TypeError (msg : string)
| ValueError (msg : string)
| IndexError (msg : string)
| AttributeError (msg : string)
| NotFittedError (msg : string).

(** A call either raises or returns. *)
Definition result (A : Type) : Type := (exn + A)%type.

Definition ret {A : Type} (a : A) : result A := inr a.
Definition raise {A : Type} (e : exn) : result A := inl e.

Definition bind {A B : Type} (c : result A) (k : A -> result B) : result B :=
  match c with
  | inl e => inl e
  | inr a => k a
  end.

Declare Scope py_scope.
Delimit Scope py_scope with py.
Notation "x <- c ;; k" := (bind c (fun x => k))
  (at level 61, c at next level, right associativity) : py_scope.
Notation "' p <- c ;; k" := (bind c (fun x => let p := x in k))
  (at level 61, p pattern, c at next level, right associativity) : py_scope.
Notation "c ;; k" := (bind c (fun _ => k))
  (at level 61, right associativity) : py_scope.
Open Scope py_scope.

(** The exceptions the module and [check_is_fitted], [r2_score] raise,
    with their messages. *)
Definition shape_error : exn :=
  ValueError "The product n_nodes and n_channels is not the correct shape.".
Definition not_fitted_error : exn :=
  NotFittedError "This CNN instance is not fitted yet. Call 'fit' with appropriate arguments before using this estimator.".
Definition tuner_error : exn :=
  ValueError "tuner parameter expects 'hyperband', 'bayesian', or 'random'".
Definition samples_error : exn :=
  ValueError "Found input variables with inconsistent numbers of samples".
Definition test_size_error : exn :=
  TypeError "Parameter test_size must be a float.".
Definition strategy_type_error : exn :=
  TypeError "Parameter strategy must be a string.".
Definition strategy_value_error : exn :=
  ValueError "Parameter strategy must be 'median', 'mean', or 'knn'.".

Definition isinstance_int (v : pyval) : bool :=
  match v with
  | PyInt _ | PyBool _ => true
  | _ => false
  end.

Definition isinstance_float (v : pyval) : bool :=
  match v with
  | PyFloat _ => true
  | _ => false
  end.

Definition isinstance_str (v : pyval) : bool :=
  match v with
  | PyStr _ => true
  | _ => false
  end.

(** The integer an int-like value stands for ([True] is 1, [False] is 0). *)
Definition int_value (v : pyval) : Z :=
  match v with
  | PyInt n => n
  | PyBool b => if b then 1%Z else 0%Z
  | _ => 0%Z
  end.

(** ** numpy arrays *)

Module np.

(** An array is its shape and its elements in C (row-major) order.
    Views are materialised: the model keeps the logical contents. *)
Record ndarray : Type := mk { shape : list nat; data : list float }.

(** One-dimensional arrays: target vectors and boolean masks. *)
Definition vector : Type := list float.
Definition mask : Type := list bool.

Definition prod (dims : list nat) : nat := fold_right Nat.mul 1 dims.
Definition size (a : ndarray) : nat := prod (shape a).
Definition ndim (a : ndarray) : nat := length (shape a).

(** The buffer holds exactly the elements the shape announces. *)
Definition wf (a : ndarray) : Prop := length (data a) = size a.

Definition isnan (y : vector) : mask := map PrimFloat.is_nan y.
Definition logical_not (m : mask) : mask := map negb m.

Definition count_true (m : mask) : nat := length (filter (fun b => b) m).

(** [y[m]] for a one-dimensional [y]. *)
Fixpoint compress (m : mask) (y : vector) : vector :=
  match m, y with
  | b :: m', v :: y' => if b then v :: compress m' y' else compress m' y'
  | _, _ => []
  end.

Definition getitem_mask (y : vector) (m : mask) : result vector :=
  if length m =? length y then ret (compress m y)
  else raise (IndexError "boolean index did not match indexed array along axis 0").

(** Rows of [width] elements each, kept where the mask is true. *)
Fixpoint compress_rows (m : mask) (width : nat) (d : list float) : list float :=
  match m with
  | [] => []
  | b :: m' =>
      (if b then firstn width d else []) ++ compress_rows m' width (skipn width d)
  end.

(** [X[m, :]]: two indices, so [X] needs two axes; the mask must have
    one entry per row. *)
Definition getitem_rows (X : ndarray) (m : mask) : result ndarray :=
  match shape X with
  | r :: c :: rest =>
      if length m =? r
      then ret (mk (count_true m :: c :: rest)
                   (compress_rows m (prod (c :: rest)) (data X)))
      else raise (IndexError "boolean index did not match indexed array along axis 0")
  | _ => raise (IndexError "too many indices for array")
  end.

(** [reshape]: a negative entry asks numpy to infer that dimension;
    at most one may be negative, and the sizes must agree. *)
Definition reshape (a : ndarray) (newshape : list Z) : result ndarray :=
  let known := fold_right Z.mul 1%Z (filter (fun d => (0 <=? d)%Z) newshape) in
  let total := Z.of_nat (size a) in
  match length (filter (fun d => (d <? 0)%Z) newshape) with
  | 0 =>
      if (known =? total)%Z
      then ret (mk (map Z.to_nat newshape) (data a))
      else raise (ValueError "cannot reshape array into the requested shape")
  | 1 =>
      if (known =? 0)%Z || negb (total mod known =? 0)%Z
      then raise (ValueError "cannot reshape array into the requested shape")
      else ret (mk (map (fun d => if (d <? 0)%Z then Z.to_nat (total / known)
                                  else Z.to_nat d) newshape)
                   (data a))
  | _ => raise (ValueError "can only specify one unknown dimension")
  end.

(** Position of a multi-index in the C-ordered buffer, and back. *)
Fixpoint ravel (dims idx : list nat) : nat :=
  match dims, idx with
  | _ :: ds, i :: idx' => i * prod ds + ravel ds idx'
  | _, _ => 0
  end.

Fixpoint unravel (dims : list nat) (p : nat) : list nat :=
  match dims with
  | [] => []
  | _ :: ds => p / prod ds :: unravel ds (p mod prod ds)
  end.

Fixpoint in_bounds (dims idx : list nat) : bool :=
  match dims, idx with
  | [], [] => true
  | d :: ds, i :: idx' => (i <? d) && in_bounds ds idx'
  | _, _ => false
  end.

(** [a[i0, i1, ...]] with one index per axis. *)
Definition item (a : ndarray) (idx : list nat) : option float :=
  if in_bounds (shape a) idx then nth_error (data a) (ravel (shape a) idx)
  else None.

Fixpoint update {A : Type} (l : list A) (n : nat) (x : A) : list A :=
  match l, n with
  | [], _ => []
  | _ :: t, 0 => x :: t
  | h :: t, S n' => h :: update t n' x
  end.

(** Exchange the entries at positions [i] and [j]. *)
Definition swap {A : Type} (i j : nat) (l : list A) : list A :=
  match nth_error l i, nth_error l j with
  | Some x, Some y => update (update l i y) j x
  | _, _ => l
  end.

(** [np.swapaxes(a, i, j)]; an axis out of range is numpy's AxisError,
    a subclass of ValueError. *)
Definition swapaxes (a : ndarray) (i j : nat) : result ndarray :=
  if (i <? ndim a) && (j <? ndim a)
  then
    let dims := swap i j (shape a) in
    ret (mk dims
            (map (fun p => nth (ravel (shape a) (swap i j (unravel dims p)))
                               (data a) nan)
                 (seq 0 (prod dims))))
  else raise (ValueError "axis is out of bounds for array").

(** [a.squeeze()]: axes of length one disappear. *)
Definition squeeze (a : ndarray) : ndarray :=
  mk (filter (fun d => negb (d =? 1)) (shape a)) (data a).

End np.

(** ** Keras models and Keras Tuner calls, as the module describes them *)

Module keras.

Inductive layer : Type :=
| Dense (units : Z) (activation : string) (input_shape : option (list nat))
| Conv1D (filters kernel_size : Z) (activation : string)
         (input_shape : option (list nat))
| MaxPool1D (pool_size : Z) (padding : string)
| Dropout (rate : float)
| Flatten.

(** A compiled [Sequential]: the layers in the order they were added and
    the arguments of [compile]. *)
Record Sequential : Type := compile
  { layers : list layer;
    loss : string;
    optimizer : string;
    metrics : list string }.

End keras.

Module kt.

Section Calls.
Variable HyperParameters : Type.

(** The keyword arguments common to the three tuner constructors. *)
Record tuner_args : Type := mk_args
  { hypermodel : HyperParameters -> result keras.Sequential;
    objective : string;
    overwrite : bool;
    project_name : pyval;
    directory : pyval;
    kwargs : list (string * pyval) }.

(** A constructor call: which tuner class, with which arguments. *)
Inductive tuner_call : Type :=
| Hyperband (max_epochs : Z) (args : tuner_args)
| BayesianOptimization (max_trials : Z) (args : tuner_args)
| RandomSearch (max_trials : Z) (args : tuner_args).
End Calls.

End kt.

(** ** The libraries behind the module

    What scikit-learn, Keras and Keras Tuner compute is not this
    repository's code.  Each call is an operation of this interface; it
    returns or raises. *)
Class Libs : Type :=
  { (** the module-level flag set by the guarded import *)
    HAS_KERAS : bool;
    (** a fitted [SimpleImputer] *)
    imputer : Type;
    SimpleImputer_fit : string -> np.ndarray -> result imputer;
    SimpleImputer_transform : imputer -> np.ndarray -> result np.ndarray;
    check_X_y : np.ndarray -> np.vector -> result (np.ndarray * np.vector);
    (** the coefficient of determination of two equally long vectors *)
    r2 : np.vector -> np.vector -> result float;
    (** [train_test_split(X, y, test_size, random_state)] returns
        [X_train, X_test, y_train, y_test] *)
    train_test_split :
      np.ndarray -> np.vector -> float -> Z ->
      result (np.ndarray * np.ndarray * np.vector * np.vector);
    HyperParameters : Type;
    (** [hp.Int(name, min_value, max_value, step)] *)
    hp_Int : HyperParameters -> string -> Z -> Z -> Z -> Z;
    Tuner : Type;
    instantiate : kt.tuner_call HyperParameters -> result Tuner;
    (** [tuner.search(X, y, epochs, validation_split)] followed by
        [tuner.get_best_hyperparameters(num_trials=1)[0]] *)
    search_best :
      Tuner -> np.ndarray -> np.vector -> Z -> float -> result HyperParameters;
    (** [Sequential()], the [add] calls and [compile]: Keras works out the
        shapes layer by layer and raises when a layer does not fit its
        input *)
    add_layers : keras.Sequential -> result unit;
    Model : Type;
    (** [model.fit(X, y, epochs, batch_size, callbacks, validation_data)]
        with the best-only checkpoint on [val_loss], then
        [model.load_weights] from that checkpoint *)
    fit_best_weights :
      keras.Sequential -> np.ndarray -> np.vector -> Z -> Z ->
      np.ndarray * np.vector -> result Model;
    model_predict : Model -> np.ndarray -> result np.ndarray }.

Module sklearn.

Section WithLibs.
Context {L : Libs}.

(** [r2_score] first checks that both vectors have the same number of
    samples, then computes the metric. *)
Definition r2_score (y_true y_pred : np.vector) : result float :=
  if length y_true =? length y_pred then r2 y_true y_pred
  else raise samples_error.
End WithLibs.

End sklearn.

Section CheckKeras.
Context {L : Libs}.

Definition _check_keras : result unit :=
  if HAS_KERAS then ret tt
  else raise (ImportError
    "To use afqinsight's convolutional neural nets for tractometry data, you will need to have tensorflow, keras, and kerastuner installed.").

(** [str(i)] for a loop counter. *)
Definition str (i : nat) : string :=
  DecimalString.NilZero.string_of_uint (Nat.to_uint i).

(** The two layers added by one round of the loop in [build_model]. *)
Definition conv_block (hp : HyperParameters) (i : nat) : list keras.layer :=
  [ keras.Conv1D (hp_Int hp ("conv_filters" ++ str i)%string 32 512 32)
                 (hp_Int hp ("conv_kernel" ++ str i)%string 1 4 1)
                 "relu" None;
    keras.MaxPool1D 2 "same" ].

Definition build_model (hp : HyperParameters) (conv_layers : Z)
    (input_shape : list nat) : result keras.Sequential :=
  _check_keras ;;
  let first :=
    keras.Conv1D (hp_Int hp "init_conv_filters" 32 512 32)
                 (hp_Int hp "init_conv_kernel" 1 4 1)
                 "relu" (Some input_shape) in
  let blocks :=
    flat_map (conv_block hp) (seq 0 (Z.to_nat (conv_layers - 1))) in
  let dense_filters_2 := hp_Int hp "dense_filters_2" 32 512 32 in
  let model :=
    keras.compile
      (first :: blocks ++
       [ keras.Dropout 0.25; keras.Flatten;
         keras.Dense dense_filters_2 "relu" None;
         keras.Dropout 0.25;
         keras.Dense 64 "relu" None;
         keras.Dense 1 "linear" None ])
      "mean_squared_error" "adam" ["mean_squared_error"] in
  add_layers model ;;
  ret model.
End CheckKeras.

(** ** [class ModelBuilder] *)

Module ModelBuilder.

Section WithLibs.
Context {L : Libs}.

Record t : Type := mk
  { class_type : pyval;
    input_shape : list nat;
    layers : Z;
    max_epochs : Z;
    X_test : np.ndarray;
    y_test : np.vector;
    batch_size : Z;
    directory : pyval;
    project_name : pyval;
    tuner_kwargs : list (string * pyval) }.

(** The body of [__init__], its parameters bound. *)
Definition __init__ (class_type : pyval) (input_shape : list nat)
    (layers max_epochs : Z) (X_test : np.ndarray) (y_test : np.vector)
    (batch_size : Z) (directory project_name : pyval)
    (tuner_kwargs : list (string * pyval)) : result t :=
  let self := mk class_type input_shape layers max_epochs X_test y_test
                 batch_size directory project_name tuner_kwargs in
  _check_keras ;;
  ret self.

(** The names [__init__] gives its parameters. *)
Definition parameters : list string :=
  [ "self"; "class_type"; "input_shape"; "layers"; "max_epochs"; "X_test";
    "y_test"; "batch_size"; "directory"; "project_name" ].

(** The first keyword that names a parameter of [__init__]. *)
Definition clash (kwargs : list (string * pyval)) : option (string * pyval) :=
  find (fun kv => existsb (String.eqb (fst kv)) parameters) kwargs.

(** The call [ModelBuilder(a1, ..., a9, **kwargs)] that [fit] makes: the
    nine positional arguments fill the parameters, so Python refuses a
    keyword that names one of them; the other keywords are
    [tuner_kwargs]. *)
Definition call (class_type : pyval) (input_shape : list nat)
    (layers max_epochs : Z) (X_test : np.ndarray) (y_test : np.vector)
    (batch_size : Z) (directory project_name : pyval)
    (kwargs : list (string * pyval)) : result t :=
  match clash kwargs with
  | Some kv =>
      raise (TypeError ("__init__() got multiple values for argument '"
                        ++ fst kv ++ "'")%string)
  | None =>
      __init__ class_type input_shape layers max_epochs X_test y_test
               batch_size directory project_name kwargs
  end.

(** [functools.partial(build_model, conv_layers=..., input_shape=...)] *)
Definition hypermodel (self : t) : HyperParameters -> result keras.Sequential :=
  fun hp => build_model hp (layers self) (input_shape self).

Definition tuner_args (self : t) : kt.tuner_args HyperParameters :=
  kt.mk_args (hypermodel self) "mean_squared_error" true
             (project_name self) (directory self) (tuner_kwargs self).

Definition _get_tuner (self : t) : result Tuner :=
  match class_type self with
  | PyStr name =>
      if String.eqb name "hyperband"
      then instantiate (kt.Hyperband 10 (tuner_args self))
      else if String.eqb name "bayesian"
      then instantiate (kt.BayesianOptimization 10 (tuner_args self))
      else if String.eqb name "random"
      then instantiate (kt.RandomSearch 10 (tuner_args self))
      else raise tuner_error
  | _ => raise (TypeError "")
  end.

Definition _get_best_weights (self : t) (model : keras.Sequential)
    (X : np.ndarray) (y : np.vector) : result Model :=
  fit_best_weights model X y (max_epochs self) (batch_size self)
                   (X_test self, y_test self).

(** The fixed architecture of [build_basic_model]. *)
Definition basic_model (X : np.ndarray) : keras.Sequential :=
  keras.compile
    [ keras.Dense 128 "relu" (Some (tl (np.shape X)));
      keras.Conv1D 24 2 "relu" None;
      keras.MaxPool1D 2 "same";
      keras.Conv1D 32 2 "relu" None;
      keras.MaxPool1D 2 "same";
      keras.Conv1D 64 3 "relu" None;
      keras.MaxPool1D 2 "same";
      keras.Conv1D 128 4 "relu" None;
      keras.MaxPool1D 2 "same";
      keras.Conv1D 256 4 "relu" None;
      keras.MaxPool1D 2 "same";
      keras.Dropout 0.25;
      keras.Flatten;
      keras.Dense 128 "relu" None;
      keras.Dropout 0.25;
      keras.Dense 64 "relu" None;
      keras.Dense 1 "linear" None ]
    "mean_squared_error" "adam" ["mean_squared_error"].

Definition build_basic_model (self : t) (X : np.ndarray) (y : np.vector)
    : result Model :=
  let model := basic_model X in
  add_layers model ;;
  _get_best_weights self model X y.

Definition build_tuned_model (self : t) (X : np.ndarray) (y : np.vector)
    : result Model :=
  tuner <- _get_tuner self ;;
  best_hps <- search_best tuner X y 50 0x1.999999999999ap-3 ;;
  model <- hypermodel self best_hps ;;
  _get_best_weights self model X y.
End WithLibs.

End ModelBuilder.

(** ** [class CNN] *)

Module CNN.

Section WithLibs.
Context {L : Libs}.

(** The attributes of an instance.  [is_fitted_] does not exist until
    [fit] sets it. *)
Record t : Type := mk
  { n_nodes : Z;
    n_channels : Z;
    layers : Z;
    max_epochs : Z;
    batch_size : Z;
    tuner : option string;
    test_size : float;
    strategy : string;
    random_state : Z;
    directory : pyval;
    project_name : pyval;
    tuner_kwargs : list (string * pyval);
    model_ : option Model;
    best_hps_ : option HyperParameters;
    is_fitted_ : option bool }.

Definition check_int (v : pyval) (msg : string) : result Z :=
  if isinstance_int v then ret (int_value v) else raise (TypeError msg).

Definition __init__ (n_nodes n_channels max_epochs batch_size tuner layers
    test_size strategy random_state directory project_name : pyval)
    (tuner_kwargs : list (string * pyval)) : result t :=
  _check_keras ;;
  n_nodes <- check_int n_nodes "Parameter n_nodes must be an integer." ;;
  n_channels <- check_int n_channels "Parameter n_channels must be an integer." ;;
  layers <- check_int layers "Parameter layers must be an integer." ;;
  max_epochs <- check_int max_epochs "Parameter max_epochs must be an integer." ;;
  batch_size <- check_int batch_size "Parameter batch_size must be an integer." ;;
  tuner <- match tuner with
           | PyStr s => ret (Some s)
           | PyNone => ret None
           | _ => raise (TypeError "Parameter tuner must be str.")
           end ;;
  test_size <- match test_size with
               | PyFloat x => ret x
               | _ => raise test_size_error
               end ;;
  strategy <- match strategy with
              | PyStr s =>
                  if existsb (String.eqb s) ["median"; "mean"; "knn"]
                  then ret s
                  else raise strategy_value_error
              | _ => raise strategy_type_error
              end ;;
  random_state <- check_int random_state "Parameter random_state must be an int." ;;
  ret (mk n_nodes n_channels layers max_epochs batch_size tuner test_size
          strategy random_state directory project_name tuner_kwargs
          None None None).

(** [a.shape[k]] *)
Definition shape_at (a : np.ndarray) (k : nat) : result nat :=
  match nth_error (np.shape a) k with
  | Some d => ret d
  | None => raise (IndexError "tuple index out of range")
  end.

Definition _preprocess (self : t) (X : np.ndarray) (y : option np.vector)
    : result (np.ndarray * option np.vector) :=
  cols <- shape_at X 1 ;;
  if negb (n_nodes self * n_channels self =? Z.of_nat cols)%Z
  then raise shape_error
  else
  if 2 <? np.ndim X
  then raise (ValueError "Expected X to be a 2D matrix.")
  else
  '(X, y) <- match y with
             | Some y =>
                 let nan_mask := np.logical_not (np.isnan y) in
                 X <- np.getitem_rows X nan_mask ;;
                 y <- np.getitem_mask y nan_mask ;;
                 ret (X, Some y)
             | None => ret (X, None)
             end ;;
  imp <- SimpleImputer_fit (strategy self) X ;;
  X <- SimpleImputer_transform imp X ;;
  '(X, y) <- match y with
             | Some y => '(X, y) <- check_X_y X y ;; ret (X, Some y)
             | None => ret (X, None)
             end ;;
  n_subjects <- shape_at X 0 ;;
  X <- np.reshape X [Z.of_nat n_subjects; n_channels self; n_nodes self] ;;
  X <- np.swapaxes X 1 2 ;;
  ret (X, y).

Definition tuner_value (self : t) : pyval :=
  match tuner self with
  | Some s => PyStr s
  | None => PyNone
  end.

Definition set_fitted (self : t) (m : Model) : t :=
  mk (n_nodes self) (n_channels self) (layers self) (max_epochs self)
     (batch_size self) (tuner self) (test_size self) (strategy self)
     (random_state self) (directory self) (project_name self)
     (tuner_kwargs self) (Some m) (best_hps_ self) (Some true).

Definition fit (self : t) (X : np.ndarray) (y : np.vector) : result t :=
  '(X, y) <- _preprocess self X (Some y) ;;
  match y with
  | None => raise (TypeError "cannot unpack non-iterable object")
  | Some y =>
      '(X_train, X_test, y_train, y_test) <-
        train_test_split X y (test_size self) (random_state self) ;;
      builder <- ModelBuilder.call (tuner_value self)
                   (tl (np.shape X_train)) (layers self) (max_epochs self)
                   X_test y_test (batch_size self) (directory self)
                   (project_name self) (tuner_kwargs self) ;;
      model <- match tuner self with
               | None => ModelBuilder.build_basic_model builder X_train y_train
               | Some _ => ModelBuilder.build_tuned_model builder X_train y_train
               end ;;
      ret (set_fitted self model)
  end.

(** [check_is_fitted(self, "is_fitted_")]: the attribute must exist. *)
Definition check_is_fitted (self : t) : result unit :=
  match is_fitted_ self with
  | Some _ => ret tt
  | None => raise not_fitted_error
  end.

Definition predict (self : t) (X : np.ndarray) : result np.ndarray :=
  '(X, _) <- _preprocess self X None ;;
  check_is_fitted self ;;
  match model_ self with
  | Some m => pred <- model_predict m X ;; ret (np.squeeze pred)
  | None => raise (AttributeError "'NoneType' object has no attribute 'predict'")
  end.

Definition score (self : t) (y_test y_hat : np.vector) : result float :=
  let nan_mask := np.logical_not (np.isnan y_test) in
  y_test <- np.getitem_mask y_test nan_mask ;;
  sklearn.r2_score y_test y_hat.
End WithLibs.

End CNN.

(** ** The stages of [CNN._preprocess]

    [_preprocess] above follows the source statement by statement.  Its
    stages are named here so that theorems can speak of the array that
    reaches the imputer and of the array that reaches the reshape. *)

Module Stage.

(** The targets that are not missing. *)
Definition kept_targets (y : np.vector) : np.vector :=
  filter (fun v => negb (PrimFloat.is_nan v)) y.

(** The first [n] rows of a buffer whose rows are [c] elements wide. *)
Fixpoint rows (n c : nat) (d : list float) : list (list float) :=
  match n with
  | 0 => []
  | S n' => firstn c d :: rows n' c (skipn c d)
  end.

(** Row [i] of [X], when there is one. *)
Definition sample (X : np.ndarray) (i : nat) : option (list float) :=
  nth_error (rows (hd 0 (np.shape X)) (np.prod (tl (np.shape X))) (np.data X)) i.

(** The rows of [X] whose target is not missing, in their order. *)
Definition kept_rows (X : np.ndarray) (y : np.vector) : list (list float) :=
  map fst (filter (fun p => negb (PrimFloat.is_nan (snd p)))
                  (combine (rows (hd 0 (np.shape X)) (np.prod (tl (np.shape X)))
                                 (np.data X))
                           y)).

(** [X] without the rows whose target is missing. *)
Definition drop_missing (X : np.ndarray) (y : np.vector) : np.ndarray :=
  np.mk (length (kept_rows X y) :: tl (np.shape X)) (concat (kept_rows X y)).

Section WithLibs.
Context {L : Libs}.

(** A fresh imputer is fit on [X] and applied to [X]. *)
Definition impute (self : CNN.t) (X : np.ndarray) : result np.ndarray :=
  imp <- SimpleImputer_fit (CNN.strategy self) X ;;
  SimpleImputer_transform imp X.

(** The statements between the shape checks and the reshape: the row
    mask when targets are given, the imputer, [check_X_y]. *)
Definition clean (self : CNN.t) (X : np.ndarray) (y : option np.vector)
    : result (np.ndarray * option np.vector) :=
  match y with
  | Some y =>
      let nan_mask := np.logical_not (np.isnan y) in
      X <- np.getitem_rows X nan_mask ;;
      y <- np.getitem_mask y nan_mask ;;
      X <- impute self X ;;
      '(X, y) <- check_X_y X y ;;
      ret (X, Some y)
  | None =>
      X <- impute self X ;;
      ret (X, None)
  end.

(** The reshape and the exchange of the last two axes. *)
Definition to_channels (self : CNN.t) (X : np.ndarray) : result np.ndarray :=
  n_subjects <- CNN.shape_at X 0 ;;
  X <- np.reshape X [Z.of_nat n_subjects; CNN.n_channels self; CNN.n_nodes self] ;;
  np.swapaxes X 1 2.

(** What [fit] does once the inputs are preprocessed. *)
Definition train (self : CNN.t) (X : np.ndarray) (y : np.vector)
    : result CNN.t :=
  '(X_train, X_test, y_train, y_test) <-
    train_test_split X y (CNN.test_size self) (CNN.random_state self) ;;
  builder <- ModelBuilder.call (CNN.tuner_value self)
               (tl (np.shape X_train)) (CNN.layers self) (CNN.max_epochs self)
               X_test y_test (CNN.batch_size self) (CNN.directory self)
               (CNN.project_name self) (CNN.tuner_kwargs self) ;;
  model <- match CNN.tuner self with
           | None => ModelBuilder.build_basic_model builder X_train y_train
           | Some _ => ModelBuilder.build_tuned_model builder X_train y_train
           end ;;
  ret (CNN.set_fitted self model).
End WithLibs.

End Stage.

(** ** A stand-in for the libraries

    A small implementation of [Libs], to run the embedding on concrete
    arrays: column means and medians for the imputer, a split that holds
    out the first sample, and models that predict zero. *)

Module Stub.

Definition present (l : list float) : list float :=
  filter (fun x => negb (PrimFloat.is_nan x)) l.

Definition fsum (l : list float) : float := fold_right PrimFloat.add 0%float l.

Definition fcount (l : list float) : float :=
  fold_right (fun _ n => PrimFloat.add n 1) 0%float l.

Definition mean (l : list float) : float :=
  PrimFloat.div (fsum (present l)) (fcount (present l)).

Fixpoint insert (x : float) (l : list float) : list float :=
  match l with
  | [] => [x]
  | h :: t => if PrimFloat.leb x h then x :: l else h :: insert x t
  end.

Definition sort (l : list float) : list float := fold_right insert [] l.

Definition median (l : list float) : float :=
  let s := sort (present l) in
  let n := length s in
  if Nat.even n
  then PrimFloat.div (PrimFloat.add (nth (n / 2 - 1) s nan) (nth (n / 2) s nan)) 2
  else nth (n / 2) s nan.

Definition column (r c : nat) (d : list float) (j : nat) : list float :=
  map (fun i => nth (i * c + j) d nan) (seq 0 r).

Definition imputer_fit (strategy : string) (X : np.ndarray)
    : result (list float) :=
  match np.shape X with
  | [r; c] =>
      if r =? 0 then raise (ValueError "Found array with 0 sample(s)")
      else if String.eqb strategy "mean"
      then ret (map (fun j => mean (column r c (np.data X) j)) (seq 0 c))
      else if String.eqb strategy "median"
      then ret (map (fun j => median (column r c (np.data X) j)) (seq 0 c))
      else raise (ValueError "unknown imputation strategy")
  | _ => raise (ValueError "Expected 2D array")
  end.

Definition imputer_transform (stats : list float) (X : np.ndarray)
    : result np.ndarray :=
  match np.shape X with
  | [r; c] =>
      if length stats =? c
      then ret (np.mk [r; c]
                  (map (fun p => let v := nth p (np.data X) nan in
                                 if PrimFloat.is_nan v then nth (p mod c) stats nan
                                 else v)
                       (seq 0 (r * c))))
      else raise (ValueError "X has a different number of features")
  | _ => raise (ValueError "Expected 2D array")
  end.

Definition all_present (l : list float) : bool :=
  forallb (fun x => negb (PrimFloat.is_nan x)) l.

Definition validate_X_y (X : np.ndarray) (y : np.vector)
    : result (np.ndarray * np.vector) :=
  if (hd 0 (np.shape X) =? length y) && all_present (np.data X) && all_present y
  then ret (X, y)
  else raise (ValueError "Input contains NaN or inconsistent numbers of samples").

Definition r_squared (y_true y_pred : np.vector) : result float :=
  let m := PrimFloat.div (fsum y_true) (fcount y_true) in
  let sq := fun d => PrimFloat.mul d d in
  let ss_res := fsum (map (fun p => sq (PrimFloat.sub (fst p) (snd p)))
                          (combine y_true y_pred)) in
  let ss_tot := fsum (map (fun v => sq (PrimFloat.sub v m)) y_true) in
  ret (PrimFloat.sub 1 (PrimFloat.div ss_res ss_tot)).

Definition holdout_first (X : np.ndarray) (y : np.vector)
    (test_size : float) (random_state : Z)
    : result (np.ndarray * np.ndarray * np.vector * np.vector) :=
  match np.shape X, y with
  | r :: rest, y0 :: y' =>
      if r <? 2
      then raise (ValueError "the resulting train set will be empty")
      else
        let w := np.prod rest in
        ret (np.mk (r - 1 :: rest) (skipn w (np.data X)),
             np.mk (1 :: rest) (firstn w (np.data X)),
             y', [y0])
  | _, _ => raise (ValueError "at least one array required as input")
  end.

Definition predict_zero (m : keras.Sequential) (X : np.ndarray)
    : result np.ndarray :=
  let n := hd 0 (np.shape X) in
  ret (np.mk [n; 1] (repeat 0%float n)).

Definition libs : Libs :=
  {| HAS_KERAS := true;
     imputer := list float;
     SimpleImputer_fit := imputer_fit;
     SimpleImputer_transform := imputer_transform;
     check_X_y := validate_X_y;
     r2 := r_squared;
     train_test_split := holdout_first;
     HyperParameters := unit;
     hp_Int := fun _ _ lo _ _ => lo;
     Tuner := kt.tuner_call unit;
     instantiate := fun call => ret call;
     search_best := fun _ _ _ _ _ => ret tt;
     add_layers := fun _ => ret tt;
     Model := keras.Sequential;
     fit_best_weights := fun m _ _ _ _ _ => ret m;
     model_predict := predict_zero |}.

(** An estimator as [CNN.__init__] leaves it, with the defaults for the
    arguments not listed. *)
Definition estimator (n_nodes n_channels : Z) (tuner : option string)
    (strategy : string) : CNN.t (L := libs) :=
  CNN.mk (L := libs) n_nodes n_channels 1 50 32 tuner 0x1.999999999999ap-3
         strategy 200 PyNone PyNone [] None None None.

(** Two samples of three nodes and two channels, no value missing. *)
Definition X_2x6 : np.ndarray :=
  np.mk [2; 6] [1; 2; 3; 4; 5; 6; 7; 8; 9; 10; 11; 12]%float.

(** Three samples; one feature of the first sample is missing. *)
Definition X_3x6 : np.ndarray :=
  np.mk [3; 6] [1; 2; nan; 4; 5; 6; 7; 8; 9; 10; 11; 12;
                13; 14; 15; 16; 17; 18]%float.

(** The same samples, with other values in the second row. *)
Definition X_3x6' : np.ndarray :=
  np.mk [3; 6] [1; 2; nan; 4; 5; 6; 70; 80; 90; 100; 110; 120;
                13; 14; 15; 16; 17; 18]%float.

(** Targets for three samples; the second is missing. *)
Definition y_3 : np.vector := [1; nan; 2]%float.

(** One sample with five features. *)
Definition X_1x5 : np.ndarray := np.mk [1; 5] [1; 2; 3; 4; 5]%float.

End Stub.

(** ** Layer kinds and further sample inputs *)

Module Layer.

Definition is_conv (l : keras.layer) : bool :=
  match l with
  | keras.Conv1D _ _ _ _ => true
  | _ => false
  end.

Definition is_pool (l : keras.layer) : bool :=
  match l with
  | keras.MaxPool1D _ _ => true
  | _ => false
  end.

End Layer.

Module Sample.

(** The stand-in libraries when the guarded import of Keras failed. *)
Definition no_keras : Libs :=
  {| HAS_KERAS := false;
     imputer := list float;
     SimpleImputer_fit := Stub.imputer_fit;
     SimpleImputer_transform := Stub.imputer_transform;
     check_X_y := Stub.validate_X_y;
     r2 := Stub.r_squared;
     train_test_split := Stub.holdout_first;
     HyperParameters := unit;
     hp_Int := fun _ _ lo _ _ => lo;
     Tuner := kt.tuner_call unit;
     instantiate := fun call => ret call;
     search_best := fun _ _ _ _ _ => ret tt;
     add_layers := fun _ => ret tt;
     Model := keras.Sequential;
     fit_best_weights := fun m _ _ _ _ _ => ret m;
     model_predict := Stub.predict_zero |}.

(** Six values on one axis. *)
Definition X_flat : np.ndarray := np.mk [6] [1; 2; 3; 4; 5; 6]%float.

(** Two samples of six features, with a third axis of length one. *)
Definition X_cube : np.ndarray :=
  np.mk [2; 6; 1] [1; 2; 3; 4; 5; 6; 7; 8; 9; 10; 11; 12]%float.

(** A single sample of six features. *)
Definition X_1x6 : np.ndarray := np.mk [1; 6] [1; 2; 3; 4; 5; 6]%float.

(** An estimator after a fit, holding the fixed architecture as its
    model. *)
Definition fitted : CNN.t (L := Stub.libs) :=
  CNN.set_fitted (L := Stub.libs) (Stub.estimator 3 2 None "mean")
    (ModelBuilder.basic_model Stub.X_2x6).

(** An estimator that differs from [Stub.estimator 3 2 None "mean"] in
    [layers], [directory], [project_name] and [tuner_kwargs]. *)
Definition other_options : CNN.t (L := Stub.libs) :=
  CNN.mk (L := Stub.libs) 3 2 4 50 32 None 0x1.999999999999ap-3 "mean" 200
         (PyStr "runs") (PyStr "trial") [("max_trials", PyInt 3)]
         None None None.

(** An imputer that, like [SimpleImputer] with its defaults, leaves out
    of its result the columns in which no value was observed: their
    statistic is NaN. *)
Definition transform_dropping (stats : list float) (X : np.ndarray)
    : result np.ndarray :=
  match np.shape X with
  | [r; c] =>
      if length stats =? c
      then
        let kept := filter (fun j => negb (PrimFloat.is_nan (nth j stats nan)))
                           (seq 0 c) in
        ret (np.mk [r; length kept]
               (flat_map
                  (fun i =>
                     map (fun j => let v := nth (i * c + j) (np.data X) nan in
                                   if PrimFloat.is_nan v then nth j stats nan
                                   else v)
                         kept)
                  (seq 0 r)))
      else raise (ValueError "X has a different number of features")
  | _ => raise (ValueError "Expected 2D array")
  end.

(** The stand-in libraries with that imputer. *)
Definition dropping : Libs :=
  {| HAS_KERAS := true;
     imputer := list float;
     SimpleImputer_fit := Stub.imputer_fit;
     SimpleImputer_transform := transform_dropping;
     check_X_y := Stub.validate_X_y;
     r2 := Stub.r_squared;
     train_test_split := Stub.holdout_first;
     HyperParameters := unit;
     hp_Int := fun _ _ lo _ _ => lo;
     Tuner := kt.tuner_call unit;
     instantiate := fun call => ret call;
     search_best := fun _ _ _ _ _ => ret tt;
     add_layers := fun _ => ret tt;
     Model := keras.Sequential;
     fit_best_weights := fun m _ _ _ _ _ => ret m;
     model_predict := Stub.predict_zero |}.

(** Two samples of six features; the third feature was never observed. *)
Definition X_empty_column : np.ndarray :=
  np.mk [2; 6] [1; 2; nan; 4; 5; 6; 7; 8; nan; 10; 11; 12]%float.

(** An estimator of three nodes and two channels over those libraries. *)
Definition estimator_dropping : CNN.t (L := dropping) :=
  CNN.mk (L := dropping) 3 2 1 50 32 None 0x1.999999999999ap-3 "mean" 200
         PyNone PyNone [] None None None.

(** An estimator constructed with the keyword [X_test=0] besides a tuner
    name. *)
Definition with_keyword (tuner : option string) : CNN.t (L := Stub.libs) :=
  CNN.mk (L := Stub.libs) 3 2 1 50 32 tuner 0x1.999999999999ap-3 "mean" 200
         PyNone PyNone [("X_test", PyInt 0)] None None None.

End Sample.

(** * Properties *)

(** ** Arithmetic of C-ordered indices *)

Lemma div_mod_of_index (q b r : nat) :
  r < b -> (q * b + r) / b = q /\ (q * b + r) mod b = r.
Proof.
  intros Hr; split.
  - symmetry; apply Nat.div_unique with (r := r); [assumption | lia].
  - symmetry; apply Nat.mod_unique with (q := q); [assumption | lia].
Qed.

Lemma index_below (i n s c : nat) : i < s -> n < c -> i * c + n < s * c.
Proof. intros Hi Hn; nia. Qed.

Lemma nth_error_tabulate {A : Type} (f : nat -> A) (len p : nat) :
  p < len -> nth_error (map f (seq 0 len)) p = Some (f p).
Proof.
  intros Hp.
  rewrite nth_error_map, nth_error_seq.
  destruct (Nat.ltb_spec p len); [reflexivity | lia].
Qed.

Section Properties.
Context {L : Libs}.

(** *** The reshape *)

(** The array [to_channels] builds from a buffer of [s] rows: position
    [p] of the result reads the buffer where the index of [p], with its
    last two entries exchanged, falls in the shape before the exchange. *)
Lemma to_channels_value (self : CNN.t) (X : np.ndarray) (s c : nat) :
  np.shape X = [s; c] ->
  (CNN.n_nodes self * CNN.n_channels self)%Z = Z.of_nat c ->
  (0 <= CNN.n_nodes self)%Z ->
  (0 <= CNN.n_channels self)%Z ->
  let N := Z.to_nat (CNN.n_nodes self) in
  let C := Z.to_nat (CNN.n_channels self) in
  Stage.to_channels self X =
  ret (np.mk [s; N; C]
         (map (fun p => nth (np.ravel [s; C; N]
                               (np.swap 1 2 (np.unravel [s; N; C] p)))
                            (np.data X) nan)
              (seq 0 (np.prod [s; N; C])))).
Proof.
  intros Hshape Hprod Hn Hc N C.
  unfold Stage.to_channels, CNN.shape_at.
  rewrite Hshape; cbn [nth_error bind ret].
  unfold np.reshape.
  cbn [filter].
  destruct (Z.ltb_spec (Z.of_nat s) 0); [lia |].
  destruct (Z.ltb_spec (CNN.n_channels self) 0); [lia |].
  destruct (Z.ltb_spec (CNN.n_nodes self) 0); [lia |].
  destruct (Z.leb_spec 0 (Z.of_nat s)); [| lia].
  destruct (Z.leb_spec 0 (CNN.n_channels self)); [| lia].
  destruct (Z.leb_spec 0 (CNN.n_nodes self)); [| lia].
  cbn [length fold_right].
  unfold np.size; rewrite Hshape; cbn [np.prod fold_right].
  replace (Z.of_nat s * (CNN.n_channels self * (CNN.n_nodes self * 1)) =?
           Z.of_nat (s * (c * 1)))%Z with true
    by (symmetry; apply Z.eqb_eq; nia).
  cbn [bind ret map].
  rewrite Nat2Z.id.
  unfold np.swapaxes, np.ndim; cbn [np.shape length Nat.ltb Nat.leb andb np.data].
  reflexivity.
Qed.

(** Element [(i, n, ch)] of that array is element [(i, ch * N + n)] of
    the matrix it was built from. *)
Lemma channels_item (X : np.ndarray) (s N C i n ch : nat) :
  np.shape X = [s; C * N] ->
  np.wf X ->
  i < s -> n < N -> ch < C ->
  np.item (np.mk [s; N; C]
             (map (fun p => nth (np.ravel [s; C; N]
                                   (np.swap 1 2 (np.unravel [s; N; C] p)))
                                (np.data X) nan)
                  (seq 0 (np.prod [s; N; C]))))
          [i; n; ch]
  = np.item X [i; ch * N + n]
  /\ np.item X [i; ch * N + n] <> None.
Proof.
  intros Hshape Hwf Hi Hn Hch.
  assert (Hcol : ch * N + n < C * N) by (apply index_below; assumption).
  assert (Hlen : length (np.data X) = s * (C * N)).
  { unfold np.wf, np.size in Hwf; rewrite Hshape in Hwf.
    cbn [np.prod fold_right] in Hwf; lia. }
  assert (Hpos : i * (C * N) + (ch * N + n) < length (np.data X)).
  { rewrite Hlen; apply index_below; assumption. }
  unfold np.item; rewrite Hshape.
  cbn [np.shape np.data np.in_bounds np.ravel np.prod fold_right].
  destruct (Nat.ltb_spec i s); [| lia].
  destruct (Nat.ltb_spec n N); [| lia].
  destruct (Nat.ltb_spec ch C); [| lia].
  destruct (Nat.ltb_spec (ch * N + n) (C * N)); [| lia].
  cbn [andb].
  rewrite !Nat.mul_1_r, !Nat.add_0_r.
  assert (Hinner : n * C + ch < N * C) by (apply index_below; assumption).
  rewrite nth_error_tabulate
    by (apply index_below; assumption).
  cbn [np.unravel np.prod fold_right].
  rewrite !Nat.mul_1_r.
  destruct (div_mod_of_index i Hinner) as [Hq Hr].
  destruct (div_mod_of_index n Hch) as [Hq' Hr'].
  rewrite Hq, Hr, Hq', Hr', Nat.div_1_r.
  unfold np.swap; cbn [nth_error np.update np.ravel np.prod fold_right].
  rewrite !Nat.mul_1_r, !Nat.add_0_r.
  rewrite (nth_error_nth' (np.data X) nan Hpos).
  split; [reflexivity | discriminate].
Qed.

(** *** The stages of [_preprocess] *)

Lemma preprocess_mismatch (self : CNN.t) (X : np.ndarray)
    (y : option np.vector) (c : nat) :
  nth_error (np.shape X) 1 = Some c ->
  (CNN.n_nodes self * CNN.n_channels self)%Z <> Z.of_nat c ->
  CNN._preprocess self X y =
  raise shape_error.
Proof.
  intros Hcols Hneq.
  unfold CNN._preprocess, CNN.shape_at; rewrite Hcols; cbn [bind ret].
  destruct (Z.eqb_spec (CNN.n_nodes self * CNN.n_channels self) (Z.of_nat c));
    [contradiction | reflexivity].
Qed.

Lemma reshape_tail (self : CNN.t) (X : np.ndarray) (yo : option np.vector) :
  (n_subjects <- CNN.shape_at X 0 ;;
   X <- np.reshape X [Z.of_nat n_subjects; CNN.n_channels self; CNN.n_nodes self] ;;
   X <- np.swapaxes X 1 2 ;;
   ret (X, yo)) =
  (T <- Stage.to_channels self X ;; ret (T, yo)).
Proof.
  unfold Stage.to_channels.
  destruct (CNN.shape_at X 0) as [e | s]; [reflexivity |]; cbn [bind].
  destruct (np.reshape X _) as [e | X1]; [reflexivity |]; cbn [bind].
  destruct (np.swapaxes X1 1 2); reflexivity.
Qed.

Lemma preprocess_stages (self : CNN.t) (X : np.ndarray)
    (y : option np.vector) (r c : nat) :
  np.shape X = [r; c] ->
  (CNN.n_nodes self * CNN.n_channels self)%Z = Z.of_nat c ->
  CNN._preprocess self X y =
  ('(Xi, yi) <- Stage.clean self X y ;;
   T <- Stage.to_channels self Xi ;;
   ret (T, yi)).
Proof.
  intros Hshape Hprod.
  assert (Hcols : CNN.shape_at X 1 = ret c)
    by (unfold CNN.shape_at; now rewrite Hshape).
  unfold CNN._preprocess, np.ndim.
  rewrite Hcols, Hshape; cbn [bind ret length].
  rewrite Hprod, Z.eqb_refl; cbn [negb Nat.ltb Nat.leb].
  unfold Stage.clean, Stage.impute.
  destruct y as [y |].
  - destruct (np.getitem_rows X _) as [e | X1]; [reflexivity |].
    destruct (np.getitem_mask y _) as [e | y1]; [reflexivity |].
    cbn [bind ret].
    destruct (SimpleImputer_fit _ X1) as [e | imp]; [reflexivity |].
    cbn [bind].
    destruct (SimpleImputer_transform imp X1) as [e | X2]; [reflexivity |].
    cbn [bind].
    destruct (check_X_y X2 y1) as [e | [X3 y3]]; [reflexivity |].
    cbn [bind ret]; apply reshape_tail.
  - cbn [bind ret].
    destruct (SimpleImputer_fit _ X) as [e | imp]; [reflexivity |].
    cbn [bind].
    destruct (SimpleImputer_transform imp X) as [e | X2]; [reflexivity |].
    cbn [bind ret]; apply reshape_tail.
Qed.

Lemma fit_train (self : CNN.t) (X : np.ndarray) (y : np.vector) :
  CNN.fit self X y =
  ('(T, yo) <- CNN._preprocess self X (Some y) ;;
   match yo with
   | Some y' => Stage.train self T y'
   | None => raise (TypeError "cannot unpack non-iterable object")
   end).
Proof. reflexivity. Qed.

(** *** Row masking *)

Lemma mask_length (y : np.vector) :
  length (np.logical_not (np.isnan y)) = length y.
Proof. unfold np.logical_not, np.isnan; now rewrite !length_map. Qed.

Lemma compress_kept (y : np.vector) :
  np.compress (np.logical_not (np.isnan y)) y = Stage.kept_targets y.
Proof.
  unfold Stage.kept_targets, np.logical_not, np.isnan.
  induction y as [| v y IH]; [reflexivity |].
  cbn; destruct (is_nan v); cbn; now rewrite IH.
Qed.

Lemma getitem_mask_kept (y : np.vector) :
  np.getitem_mask y (np.logical_not (np.isnan y)) = ret (Stage.kept_targets y).
Proof.
  unfold np.getitem_mask.
  rewrite mask_length, Nat.eqb_refl, compress_kept; reflexivity.
Qed.

Lemma compress_rows_kept (y : np.vector) (w : nat) (d : list float) :
  np.compress_rows (np.logical_not (np.isnan y)) w d =
  concat (map fst (filter (fun p => negb (is_nan (snd p)))
                          (combine (Stage.rows (length y) w d) y))).
Proof.
  unfold np.logical_not, np.isnan.
  revert d; induction y as [| v y IH]; intros d; [reflexivity |].
  cbn; destruct (is_nan v); cbn; now rewrite IH.
Qed.

Lemma count_true_kept (y : np.vector) (w : nat) (d : list float) :
  np.count_true (np.logical_not (np.isnan y)) =
  length (map fst (filter (fun p => negb (is_nan (snd p)))
                          (combine (Stage.rows (length y) w d) y))).
Proof.
  unfold np.count_true, np.logical_not, np.isnan.
  revert d; induction y as [| v y IH]; intros d; [reflexivity |].
  cbn; destruct (is_nan v); cbn; now rewrite (IH (skipn w d)).
Qed.

Lemma getitem_rows_kept (X : np.ndarray) (y : np.vector) (c : nat) :
  np.shape X = [length y; c] ->
  np.getitem_rows X (np.logical_not (np.isnan y)) = ret (Stage.drop_missing X y).
Proof.
  intros Hshape.
  unfold np.getitem_rows, Stage.drop_missing, Stage.kept_rows.
  rewrite Hshape, mask_length, Nat.eqb_refl; cbn [hd tl].
  rewrite compress_rows_kept.
  rewrite (count_true_kept y (np.prod [c]) (np.data X)).
  reflexivity.
Qed.

Lemma kept_rows_length (X : np.ndarray) (y : np.vector) (c : nat) :
  np.shape X = [length y; c] ->
  length (Stage.kept_rows X y) = length (Stage.kept_targets y).
Proof.
  intros Hshape; unfold Stage.kept_rows, Stage.kept_targets.
  rewrite Hshape; cbn [hd tl]; clear Hshape.
  generalize (np.data X); generalize (np.prod [c]).
  induction y as [| v y IH]; intros w d; [reflexivity |].
  cbn; destruct (is_nan v); cbn; now rewrite IH.
Qed.

Lemma kept_targets_present (y : np.vector) :
  Forall (fun v => is_nan v = false) (Stage.kept_targets y).
Proof.
  apply Forall_forall; intros v Hin.
  apply filter_In in Hin as [_ Hv].
  now apply negb_true_iff.
Qed.

(** Two buffers that agree on every row whose mask entry is true have
    the same compressed rows. *)
Lemma compress_rows_ext (m : np.mask) (w : nat) (d d' : list float) :
  (forall i, nth i m false = true ->
             firstn w (skipn (i * w) d) = firstn w (skipn (i * w) d')) ->
  np.compress_rows m w d = np.compress_rows m w d'.
Proof.
  revert d d'; induction m as [| b m IH]; intros d d' Hrows; [reflexivity |].
  cbn [np.compress_rows]; f_equal.
  - destruct b; [| reflexivity].
    apply (Hrows 0); reflexivity.
  - apply IH; intros i Hi.
    rewrite !skipn_skipn.
    replace (i * w + w) with (S i * w) by lia.
    apply (Hrows (S i)); assumption.
Qed.

(** *** Claims about the shape check and the reshape *)

(** C1, as amended.  For a two-dimensional [X], preprocessing compares
    [n_nodes * n_channels] with the number of columns before anything
    else.  When they differ, [_preprocess], and with it [fit] and
    [predict], raise the shape ValueError, whatever the libraries would
    do.  When they agree, the check lets [X] through to masking,
    imputation and the reshape; for non-negative [n_nodes] and
    [n_channels], and a masked and imputed matrix that has the columns of
    [X], the reshape goes through and [_preprocess] returns an array of
    shape (samples, nodes, channels). *)
Theorem shape_checked_before_reshape (self : CNN.t) (X : np.ndarray)
    (r c : nat) :
  np.shape X = [r; c] ->
  ((CNN.n_nodes self * CNN.n_channels self)%Z <> Z.of_nat c ->
     (forall y, CNN._preprocess self X y = raise shape_error) /\
     (forall y, CNN.fit self X y = raise shape_error) /\
     CNN.predict self X = raise shape_error)
  /\
  ((CNN.n_nodes self * CNN.n_channels self)%Z = Z.of_nat c ->
     (forall y,
        CNN._preprocess self X y =
        ('(Xi, yi) <- Stage.clean self X y ;;
         T <- Stage.to_channels self Xi ;;
         ret (T, yi)))
     /\
     ((0 <= CNN.n_nodes self)%Z ->
      (0 <= CNN.n_channels self)%Z ->
      forall y Xi yi s,
        Stage.clean self X y = ret (Xi, yi) ->
        np.shape Xi = [s; c] ->
        exists T,
          CNN._preprocess self X y = ret (T, yi) /\
          np.shape T = [s; Z.to_nat (CNN.n_nodes self);
                        Z.to_nat (CNN.n_channels self)])).
Proof.
  intros Hshape; split.
  - intros Hneq.
    assert (Hpre : forall y, CNN._preprocess self X y = raise shape_error).
    { intros y; apply preprocess_mismatch with (c := c); [| assumption].
      now rewrite Hshape. }
    split; [assumption |]; split.
    + intros y; rewrite fit_train, Hpre; reflexivity.
    + unfold CNN.predict; rewrite Hpre; reflexivity.
  - intros Hprod; split.
    + intros y; apply preprocess_stages with (r := r) (c := c); assumption.
    + intros Hn Hc y Xi yi s Hclean HXi.
      rewrite preprocess_stages with (r := r) (c := c) by assumption.
      rewrite Hclean; cbn [bind ret].
      rewrite to_channels_value with (s := s) (c := c) by assumption.
      eexists; split; reflexivity.
Qed.

(** C3.  When [n_nodes * n_channels] is the number of columns, the
    reshape in [_preprocess] returns an array of shape
    (samples, nodes, channels) whose element (i, n, ch) is the element at
    row i and column [ch * n_nodes + n] of the matrix that reaches the
    reshape: the flat columns are read as (channels, nodes) and the two
    axes are exchanged. *)
Theorem reshape_reads_channel_major (self : CNN.t) (X Xi : np.ndarray)
    (y yi : option np.vector) (r c s : nat) :
  np.shape X = [r; c] ->
  (CNN.n_nodes self * CNN.n_channels self)%Z = Z.of_nat c ->
  (0 <= CNN.n_nodes self)%Z ->
  (0 <= CNN.n_channels self)%Z ->
  Stage.clean self X y = ret (Xi, yi) ->
  np.shape Xi = [s; c] ->
  np.wf Xi ->
  let N := Z.to_nat (CNN.n_nodes self) in
  let C := Z.to_nat (CNN.n_channels self) in
  exists T,
    CNN._preprocess self X y = ret (T, yi) /\
    np.shape T = [s; N; C] /\
    forall i n ch, i < s -> n < N -> ch < C ->
      np.item T [i; n; ch] = np.item Xi [i; ch * N + n] /\
      np.item Xi [i; ch * N + n] <> None.
Proof.
  intros Hshape Hprod Hn Hc Hclean HXi Hwf N C.
  rewrite preprocess_stages with (r := r) (c := c) by assumption.
  rewrite Hclean; cbn [bind ret].
  rewrite to_channels_value with (s := s) (c := c) by assumption.
  eexists; split; [reflexivity |]; split; [reflexivity |].
  intros i n ch Hi Hnn Hch.
  apply channels_item; try assumption.
  rewrite HXi; do 2 f_equal.
  apply Nat2Z.inj; rewrite <- Hprod; subst N C.
  rewrite Nat2Z.inj_mul, !Z2Nat.id by assumption; lia.
Qed.

(** *** Claims about rows whose target is missing *)

Lemma kept_rows_ext (y : np.vector) (w : nat) (d d' : list float) :
  (forall i v, nth_error y i = Some v -> is_nan v = false ->
     nth_error (Stage.rows (length y) w d') i =
     nth_error (Stage.rows (length y) w d) i) ->
  map fst (filter (fun p => negb (is_nan (snd p)))
                  (combine (Stage.rows (length y) w d') y)) =
  map fst (filter (fun p => negb (is_nan (snd p)))
                  (combine (Stage.rows (length y) w d) y)).
Proof.
  revert d d'; induction y as [| v y IH]; intros d d' Hrows; [reflexivity |].
  cbn [length Stage.rows combine filter snd].
  assert (Htail : forall i v0, nth_error y i = Some v0 -> is_nan v0 = false ->
            nth_error (Stage.rows (length y) w (skipn w d')) i =
            nth_error (Stage.rows (length y) w (skipn w d)) i)
    by (intros i v0 Hi Hv0; apply (Hrows (S i) v0); assumption).
  destruct (is_nan v) eqn:Hv; cbn [negb map fst].
  - apply IH; assumption.
  - f_equal; [| apply IH; assumption].
    specialize (Hrows 0 v eq_refl Hv); cbn in Hrows; congruence.
Qed.

Lemma drop_missing_ext (X X' : np.ndarray) (y : np.vector) (c : nat) :
  np.shape X = [length y; c] ->
  np.shape X' = np.shape X ->
  (forall i v, nth_error y i = Some v -> is_nan v = false ->
     Stage.sample X' i = Stage.sample X i) ->
  Stage.drop_missing X' y = Stage.drop_missing X y.
Proof.
  intros Hshape Hsame Hrows.
  unfold Stage.drop_missing, Stage.kept_rows, Stage.sample in *.
  rewrite Hsame, Hshape in *; cbn [hd tl] in *.
  now rewrite (kept_rows_ext y (np.prod [c]) (np.data X) (np.data X') Hrows).
Qed.

Lemma preprocess_kept (self : CNN.t) (X : np.ndarray) (y : np.vector)
    (c : nat) :
  np.shape X = [length y; c] ->
  (CNN.n_nodes self * CNN.n_channels self)%Z = Z.of_nat c ->
  CNN._preprocess self X (Some y) =
  (imp <- SimpleImputer_fit (CNN.strategy self) (Stage.drop_missing X y) ;;
   Xi <- SimpleImputer_transform imp (Stage.drop_missing X y) ;;
   '(Xc, yc) <- check_X_y Xi (Stage.kept_targets y) ;;
   T <- Stage.to_channels self Xc ;;
   ret (T, Some yc)).
Proof.
  intros Hshape Hprod.
  rewrite preprocess_stages with (r := length y) (c := c) by assumption.
  unfold Stage.clean, Stage.impute.
  rewrite getitem_rows_kept with (c := c) by assumption.
  rewrite getitem_mask_kept; cbn [bind ret].
  destruct (SimpleImputer_fit _ _) as [e | imp]; [reflexivity |]; cbn [bind].
  destruct (SimpleImputer_transform imp _) as [e | Xi]; [reflexivity |]; cbn [bind].
  destruct (check_X_y Xi _) as [e | [Xc yc]]; reflexivity.
Qed.

(** C4.  In [fit], the rows of [X] whose target is missing are removed
    from [X] and from [y] before the imputer is fit: the imputer is fit
    on, and applied to, the remaining rows only, the targets handed on
    contain no missing value and are as many as the remaining rows, and
    what the removed rows contain has no effect on [fit]. *)
Theorem fit_drops_rows_with_missing_target (self : CNN.t) (X : np.ndarray)
    (y : np.vector) (c : nat) :
  np.shape X = [length y; c] ->
  (CNN.n_nodes self * CNN.n_channels self)%Z = Z.of_nat c ->
  CNN._preprocess self X (Some y) =
    (imp <- SimpleImputer_fit (CNN.strategy self) (Stage.drop_missing X y) ;;
     Xi <- SimpleImputer_transform imp (Stage.drop_missing X y) ;;
     '(Xc, yc) <- check_X_y Xi (Stage.kept_targets y) ;;
     T <- Stage.to_channels self Xc ;;
     ret (T, Some yc))
  /\ np.shape (Stage.drop_missing X y) = [length (Stage.kept_targets y); c]
  /\ Forall (fun v => is_nan v = false) (Stage.kept_targets y)
  /\ forall X',
       np.shape X' = np.shape X ->
       (forall i v, nth_error y i = Some v -> is_nan v = false ->
          Stage.sample X' i = Stage.sample X i) ->
       CNN.fit self X' y = CNN.fit self X y.
Proof.
  intros Hshape Hprod.
  split; [apply preprocess_kept with (c := c); assumption |].
  split.
  { unfold Stage.drop_missing; cbn [np.shape].
    rewrite kept_rows_length with (c := c) by assumption.
    now rewrite Hshape. }
  split; [apply kept_targets_present |].
  intros X' Hsame Hrows.
  rewrite !fit_train.
  rewrite !preprocess_kept with (c := c) by congruence.
  now rewrite drop_missing_ext with (X := X) (X' := X') (c := c).
Qed.

(** *** Claims about [predict] and the fitted state *)

Lemma predict_unfitted (self : CNN.t) (X : np.ndarray) :
  CNN.is_fitted_ self = None ->
  CNN.predict self X =
  match CNN._preprocess self X None with
  | inl e => raise e
  | inr _ => raise not_fitted_error
  end.
Proof.
  intros Hnot; unfold CNN.predict, CNN.check_is_fitted; rewrite Hnot.
  destruct (CNN._preprocess self X None) as [e | [T yo]]; reflexivity.
Qed.

(** C5, as amended.  [predict] on an estimator that was never fitted does
    not return a prediction: it raises, and what it raises is the
    not-fitted error whenever the preprocessing of [X] succeeds. *)
Theorem predict_unfitted_raises (self : CNN.t) (X : np.ndarray) :
  CNN.is_fitted_ self = None ->
  (exists e, CNN.predict self X = raise e) /\
  (forall T, CNN._preprocess self X None = ret T ->
             CNN.predict self X = raise not_fitted_error).
Proof.
  intros Hnot; rewrite (predict_unfitted self X Hnot); split.
  - destruct (CNN._preprocess self X None) as [e | T]; eexists; reflexivity.
  - intros T HT; now rewrite HT.
Qed.

(** C9.  [predict] preprocesses [X] before it looks at the fitted state.
    On an estimator that was never fitted, an [X] whose number of columns
    is not [n_nodes * n_channels] gets the shape ValueError; whenever
    preprocessing raises, [predict] raises that same exception; the
    not-fitted error is what [predict] raises once preprocessing has
    returned. *)
Theorem predict_preprocesses_first (self : CNN.t) (X : np.ndarray) :
  CNN.is_fitted_ self = None ->
  (forall r c, np.shape X = [r; c] ->
     (CNN.n_nodes self * CNN.n_channels self)%Z <> Z.of_nat c ->
     CNN.predict self X = raise shape_error /\
     CNN.predict self X <> raise not_fitted_error)
  /\ (forall e, CNN._preprocess self X None = raise e ->
                CNN.predict self X = raise e)
  /\ (forall T, CNN._preprocess self X None = ret T ->
                CNN.predict self X = raise not_fitted_error).
Proof.
  intros Hnot; rewrite (predict_unfitted self X Hnot).
  split; [| split].
  - intros r c Hshape Hneq.
    rewrite preprocess_mismatch with (c := c);
      [split; [reflexivity | discriminate] | now rewrite Hshape | assumption].
  - intros e He; now rewrite He.
  - intros T HT; now rewrite HT.
Qed.

Lemma fit_sets_model (self fitted : CNN.t) (X : np.ndarray) (y : np.vector) :
  CNN.fit self X y = ret fitted ->
  exists m, fitted = CNN.set_fitted self m.
Proof.
  rewrite fit_train; unfold Stage.train.
  destruct (CNN._preprocess self X (Some y)) as [e | [T [y' |]]];
    cbn [bind]; try discriminate.
  destruct (train_test_split T y' _ _) as [e | [[[Xtr Xte] ytr] yte]];
    cbn [bind]; try discriminate.
  destruct (ModelBuilder.call _ _ _ _ _ _ _ _ _ _) as [e | builder];
    cbn [bind]; try discriminate.
  destruct (match CNN.tuner self with
            | Some _ => ModelBuilder.build_tuned_model builder Xtr ytr
            | None => ModelBuilder.build_basic_model builder Xtr ytr
            end) as [e | m]; cbn [bind ret]; try discriminate.
  unfold ret; intros [= <-]; exists m; reflexivity.
Qed.

(** [_preprocess] reads three attributes of the estimator and nothing
    else. *)
Lemma preprocess_reads (self self' : CNN.t) (X : np.ndarray)
    (y : option np.vector) :
  CNN.n_nodes self' = CNN.n_nodes self ->
  CNN.n_channels self' = CNN.n_channels self ->
  CNN.strategy self' = CNN.strategy self ->
  CNN._preprocess self' X y = CNN._preprocess self X y.
Proof.
  intros Hn Hc Hs; unfold CNN._preprocess; now rewrite Hn, Hc, Hs.
Qed.

(** C10.  The preprocessing inside [predict] fits a fresh imputer on the
    [X] it is given and applies it to that same [X].  Nothing of the
    training data enters: an estimator fitted on one training set and one
    fitted on another preprocess [X] alike, and [predict] hands the model
    the array so obtained. *)
Theorem predict_imputes_from_its_batch (self fa fb : CNN.t)
    (Xa Xb : np.ndarray) (ya yb : np.vector) (X : np.ndarray) (r c : nat) :
  CNN.fit self Xa ya = ret fa ->
  CNN.fit self Xb yb = ret fb ->
  np.shape X = [r; c] ->
  (CNN.n_nodes self * CNN.n_channels self)%Z = Z.of_nat c ->
  CNN._preprocess fa X None =
    (imp <- SimpleImputer_fit (CNN.strategy self) X ;;
     Xi <- SimpleImputer_transform imp X ;;
     T <- Stage.to_channels self Xi ;;
     ret (T, None))
  /\ CNN._preprocess fa X None = CNN._preprocess fb X None
  /\ exists m,
       CNN.model_ fa = Some m /\
       CNN.predict fa X =
         ('(T, _) <- CNN._preprocess fa X None ;;
          pred <- model_predict m T ;;
          ret (np.squeeze pred)).
Proof.
  intros Hfa Hfb Hshape Hprod.
  destruct (fit_sets_model _ _ _ Hfa) as [ma ->].
  destruct (fit_sets_model _ _ _ Hfb) as [mb ->].
  assert (Hsame : forall m, CNN._preprocess (CNN.set_fitted self m) X None =
                            CNN._preprocess self X None)
    by (intros m; apply preprocess_reads; reflexivity).
  rewrite !Hsame; split; [| split; [reflexivity |]].
  - rewrite preprocess_stages with (r := r) (c := c) by assumption.
    unfold Stage.clean, Stage.impute.
    destruct (SimpleImputer_fit _ X) as [e | imp]; [reflexivity |]; cbn [bind].
    destruct (SimpleImputer_transform imp X) as [e | Xi]; reflexivity.
  - exists ma; split; [reflexivity |].
    unfold CNN.predict; rewrite Hsame.
    destruct (CNN._preprocess self X None) as [e | [T yo]]; reflexivity.
Qed.

(** *** Claim about [score] *)

Lemma kept_targets_shorter (y : np.vector) :
  Exists (fun v => is_nan v = true) y ->
  length (Stage.kept_targets y) < length y.
Proof.
  unfold Stage.kept_targets.
  induction 1 as [v y Hv | v y _ IH]; cbn [filter length].
  - rewrite Hv; cbn [negb].
    pose proof (filter_length_le (fun v => negb (is_nan v)) y); lia.
  - destruct (negb (is_nan v)); cbn [length]; lia.
Qed.

(** C2, on the code.  Only [y_test] is masked, [y_hat] keeps its length:
    when the two vectors are equally long and a target is missing,
    [score] calls [r2_score] on the targets that are present and on all of
    [y_hat], which is longer, and so raises instead of returning a
    score. *)
Theorem score_raises_on_missing_target (self : CNN.t)
    (y_test y_hat : np.vector) :
  length y_test = length y_hat ->
  Exists (fun v => is_nan v = true) y_test ->
  CNN.score self y_test y_hat =
    sklearn.r2_score (Stage.kept_targets y_test) y_hat
  /\ length (Stage.kept_targets y_test) < length y_hat
  /\ CNN.score self y_test y_hat = raise samples_error.
Proof.
  intros Hlen Hnan.
  pose proof (kept_targets_shorter Hnan) as Hshort.
  unfold CNN.score; rewrite getitem_mask_kept; cbn [bind ret].
  split; [reflexivity |]; split; [lia |].
  unfold sklearn.r2_score.
  destruct (Nat.eqb_spec (length (Stage.kept_targets y_test)) (length y_hat));
    [lia | reflexivity].
Qed.

(** *** Claims about construction *)

Lemma check_int_ok (v : pyval) (msg : string) :
  isinstance_int v = true -> CNN.check_int v msg = ret (int_value v).
Proof. intros Hv; unfold CNN.check_int; now rewrite Hv. Qed.

Lemma recognised_strategy (s : string) :
  existsb (String.eqb s) ["median"; "mean"; "knn"] = true <->
  In s ["median"; "mean"; "knn"].
Proof.
  rewrite existsb_exists; split.
  - intros [x [Hin Heq]]; apply String.eqb_eq in Heq; now subst.
  - intros Hin; exists s; split; [assumption | apply String.eqb_refl].
Qed.

(** Construction, once the checks that come before [test_size] have
    passed. *)
Lemma init_from_test_size
    (n_nodes n_channels max_epochs batch_size tuner layers test_size
     strategy random_state directory project_name : pyval)
    (tuner_kwargs : list (string * pyval)) :
  HAS_KERAS = true ->
  isinstance_int n_nodes = true ->
  isinstance_int n_channels = true ->
  isinstance_int layers = true ->
  isinstance_int max_epochs = true ->
  isinstance_int batch_size = true ->
  tuner = PyNone \/ isinstance_str tuner = true ->
  CNN.__init__ n_nodes n_channels max_epochs batch_size tuner layers
               test_size strategy random_state directory project_name
               tuner_kwargs =
  (x <- match test_size with
        | PyFloat x => ret x
        | _ => raise test_size_error
        end ;;
   s <- match strategy with
        | PyStr s =>
            if existsb (String.eqb s) ["median"; "mean"; "knn"]
            then ret s
            else raise strategy_value_error
        | _ => raise strategy_type_error
        end ;;
   seed <- CNN.check_int random_state "Parameter random_state must be an int." ;;
   ret (CNN.mk (int_value n_nodes) (int_value n_channels) (int_value layers)
               (int_value max_epochs) (int_value batch_size)
               (match tuner with PyStr name => Some name | _ => None end)
               x s seed directory project_name tuner_kwargs None None None)).
Proof.
  intros Hk Hn Hc Hl He Hb Ht.
  unfold CNN.__init__, _check_keras; rewrite Hk; cbn [bind ret].
  rewrite !check_int_ok by assumption; cbn [bind ret].
  destruct Ht as [-> | Ht]; [reflexivity |].
  destruct tuner; try discriminate; reflexivity.
Qed.

(** C6.  With the arguments checked before it in order, [strategy] is
    validated at construction: a value that is not a string raises the
    TypeError, a string other than 'median', 'mean' and 'knn' raises the
    ValueError, each of the three is accepted and stored, and no other
    value is ever accepted. *)
Theorem strategy_validated
    (n_nodes n_channels max_epochs batch_size tuner layers test_size
     strategy random_state directory project_name : pyval)
    (tuner_kwargs : list (string * pyval)) :
  HAS_KERAS = true ->
  isinstance_int n_nodes = true ->
  isinstance_int n_channels = true ->
  isinstance_int layers = true ->
  isinstance_int max_epochs = true ->
  isinstance_int batch_size = true ->
  tuner = PyNone \/ isinstance_str tuner = true ->
  isinstance_float test_size = true ->
  let init :=
    CNN.__init__ n_nodes n_channels max_epochs batch_size tuner layers
                 test_size strategy random_state directory project_name
                 tuner_kwargs in
  (isinstance_str strategy = false -> init = raise strategy_type_error)
  /\ (forall s, strategy = PyStr s -> ~ In s ["median"; "mean"; "knn"] ->
                init = raise strategy_value_error)
  /\ (forall s, strategy = PyStr s -> In s ["median"; "mean"; "knn"] ->
                isinstance_int random_state = true ->
                exists self, init = ret self /\ CNN.strategy self = s)
  /\ (forall self, init = ret self ->
                   strategy = PyStr (CNN.strategy self) /\
                   In (CNN.strategy self) ["median"; "mean"; "knn"]).
Proof.
  intros Hk Hn Hc Hl He Hb Ht Hf init; subst init.
  rewrite init_from_test_size by assumption.
  destruct test_size as [| | | x | |]; try discriminate; cbn [bind ret].
  split; [| split; [| split]].
  - intros Hs; destruct strategy; try discriminate; reflexivity.
  - intros s -> Hout.
    destruct (existsb _ _) eqn:Hex; [| reflexivity].
    now apply recognised_strategy in Hex.
  - intros s -> Hin Hseed.
    apply recognised_strategy in Hin; rewrite Hin; cbn [bind ret].
    rewrite check_int_ok by assumption; cbn [bind ret].
    eexists; split; reflexivity.
  - intros self.
    destruct strategy as [| | | | s |]; try discriminate.
    destruct (existsb _ _) eqn:Hex; [| discriminate]; cbn [bind ret].
    destruct (CNN.check_int random_state _) as [e | seed]; [discriminate |].
    cbn [bind ret]; unfold ret; intros [= <-]; cbn [CNN.strategy].
    split; [reflexivity | now apply recognised_strategy].
Qed.

(** C7, as amended.  With the arguments checked before it in order,
    [test_size] is validated for its type at construction: a value that
    is not a float raises the TypeError, and every float, inside the
    interval (0, 1) or not, is accepted and stored as given. *)
Theorem test_size_type_validated
    (n_nodes n_channels max_epochs batch_size tuner layers test_size
     strategy random_state directory project_name : pyval)
    (tuner_kwargs : list (string * pyval)) :
  HAS_KERAS = true ->
  isinstance_int n_nodes = true ->
  isinstance_int n_channels = true ->
  isinstance_int layers = true ->
  isinstance_int max_epochs = true ->
  isinstance_int batch_size = true ->
  tuner = PyNone \/ isinstance_str tuner = true ->
  let init :=
    CNN.__init__ n_nodes n_channels max_epochs batch_size tuner layers
                 test_size strategy random_state directory project_name
                 tuner_kwargs in
  (isinstance_float test_size = false -> init = raise test_size_error)
  /\ (forall x s, test_size = PyFloat x ->
        strategy = PyStr s -> In s ["median"; "mean"; "knn"] ->
        isinstance_int random_state = true ->
        exists self, init = ret self /\ CNN.test_size self = x).
Proof.
  intros Hk Hn Hc Hl He Hb Ht init; subst init.
  rewrite init_from_test_size by assumption.
  split.
  - intros Hf; destruct test_size; try discriminate; reflexivity.
  - intros x s -> -> Hin Hseed; cbn [bind ret].
    apply recognised_strategy in Hin; rewrite Hin; cbn [bind ret].
    rewrite check_int_ok by assumption; cbn [bind ret].
    eexists; split; reflexivity.
Qed.

(** *** Claim about the choice of tuner *)

Lemma unknown_tuner (name : string) :
  ~ In name ["hyperband"; "bayesian"; "random"] ->
  String.eqb name "hyperband" = false /\
  String.eqb name "bayesian" = false /\
  String.eqb name "random" = false.
Proof.
  intros Hout; repeat split; apply String.eqb_neq; intros ->;
    apply Hout; cbn; tauto.
Qed.

Lemma get_tuner_unknown (builder : ModelBuilder.t) (name : string) :
  ModelBuilder.class_type builder = PyStr name ->
  ~ In name ["hyperband"; "bayesian"; "random"] ->
  ModelBuilder._get_tuner builder = raise tuner_error.
Proof.
  intros Hclass Hout; unfold ModelBuilder._get_tuner; rewrite Hclass.
  destruct (unknown_tuner Hout) as [-> [-> ->]]; reflexivity.
Qed.

(** What the call of [ModelBuilder] in [fit] returns when it returns. *)
Lemma call_inv (class_type : pyval) (input_shape : list nat)
    (layers max_epochs : Z) (X_test : np.ndarray) (y_test : np.vector)
    (batch_size : Z) (directory project_name : pyval)
    (kwargs : list (string * pyval)) (builder : ModelBuilder.t) :
  ModelBuilder.call class_type input_shape layers max_epochs X_test y_test
    batch_size directory project_name kwargs = ret builder ->
  HAS_KERAS = true /\
  ModelBuilder.clash kwargs = None /\
  builder = ModelBuilder.mk class_type input_shape layers max_epochs X_test
              y_test batch_size directory project_name kwargs.
Proof.
  unfold ModelBuilder.call, ModelBuilder.__init__, _check_keras.
  destruct (ModelBuilder.clash kwargs); [discriminate |].
  destruct HAS_KERAS; [| discriminate]; cbn [bind ret].
  unfold ret; intros [= <-]; repeat split.
Qed.

Lemma call_ok (class_type : pyval) (input_shape : list nat)
    (layers max_epochs : Z) (X_test : np.ndarray) (y_test : np.vector)
    (batch_size : Z) (directory project_name : pyval)
    (kwargs : list (string * pyval)) :
  HAS_KERAS = true ->
  ModelBuilder.clash kwargs = None ->
  ModelBuilder.call class_type input_shape layers max_epochs X_test y_test
    batch_size directory project_name kwargs =
  ret (ModelBuilder.mk class_type input_shape layers max_epochs X_test
         y_test batch_size directory project_name kwargs).
Proof.
  intros Hk Hclash.
  unfold ModelBuilder.call, ModelBuilder.__init__, _check_keras.
  now rewrite Hclash, Hk.
Qed.

(** With a tuner name that [_get_tuner] does not know, training raises
    whatever the split returns. *)
Lemma train_unknown_tuner (self : CNN.t) (name : string) (T : np.ndarray)
    (y : np.vector) :
  CNN.tuner self = Some name ->
  ~ In name ["hyperband"; "bayesian"; "random"] ->
  exists e, Stage.train self T y = raise e.
Proof.
  intros Htuner Hout; unfold Stage.train.
  destruct (train_test_split T y _ _) as [e | [[[Xtr Xte] ytr] yte]];
    cbn [bind]; [eexists; reflexivity |].
  destruct (ModelBuilder.call _ _ _ _ _ _ _ _ _ _) as [e | builder] eqn:Hcall;
    cbn [bind]; [eexists; reflexivity |].
  apply call_inv in Hcall as (_ & _ & ->).
  rewrite Htuner; unfold ModelBuilder.build_tuned_model.
  rewrite get_tuner_unknown with (name := name); cbn [bind];
    [eexists; reflexivity | | assumption].
  cbn [ModelBuilder.class_type]; unfold CNN.tuner_value; now rewrite Htuner.
Qed.

(** C8, as amended.  Once [fit] has preprocessed and split its inputs and
    the call of [ModelBuilder] has gone through (Keras is there and no
    keyword of [tuner_kwargs] names a parameter of [ModelBuilder]), the
    [tuner] attribute decides what is built.  Without a tuner, [fit] has
    Keras assemble the fixed architecture of [build_basic_model], of
    seventeen layers from a Dense layer on the input shape to
    Dense(1, linear), and trains it; with 'hyperband', 'bayesian' or
    'random' it instantiates [Hyperband], [BayesianOptimization] or
    [RandomSearch], searches, and trains the model built from the best
    hyperparameters; with any other string [fit] raises the tuner
    ValueError before any search or training, and on no input does
    [fit] then return. *)
Theorem tuner_selection (self : CNN.t) (X T Xtr Xte : np.ndarray)
    (y y' ytr yte : np.vector) :
  HAS_KERAS = true ->
  ModelBuilder.clash (CNN.tuner_kwargs self) = None ->
  CNN._preprocess self X (Some y) = ret (T, Some y') ->
  train_test_split T y' (CNN.test_size self) (CNN.random_state self) =
    ret (Xtr, Xte, ytr, yte) ->
  let builder :=
    ModelBuilder.mk (CNN.tuner_value self) (tl (np.shape Xtr))
      (CNN.layers self) (CNN.max_epochs self) Xte yte (CNN.batch_size self)
      (CNN.directory self) (CNN.project_name self) (CNN.tuner_kwargs self) in
  let args := ModelBuilder.tuner_args builder in
  let trained (model : keras.Sequential) :=
    m <- fit_best_weights model Xtr ytr (CNN.max_epochs self)
           (CNN.batch_size self) (Xte, yte) ;;
    ret (CNN.set_fitted self m) in
  let tuned (call : kt.tuner_call HyperParameters) :=
    tuner <- instantiate call ;;
    best_hps <- search_best tuner Xtr ytr 50 0x1.999999999999ap-3 ;;
    model <- build_model best_hps (CNN.layers self) (tl (np.shape Xtr)) ;;
    trained model in
  (CNN.tuner self = None ->
     CNN.fit self X y =
       (add_layers (ModelBuilder.basic_model Xtr) ;;
        trained (ModelBuilder.basic_model Xtr)) /\
     length (keras.layers (ModelBuilder.basic_model Xtr)) = 17 /\
     hd keras.Flatten (keras.layers (ModelBuilder.basic_model Xtr)) =
       keras.Dense 128 "relu" (Some (tl (np.shape Xtr))) /\
     last (keras.layers (ModelBuilder.basic_model Xtr)) keras.Flatten =
       keras.Dense 1 "linear" None)
  /\ (CNN.tuner self = Some "hyperband" ->
        CNN.fit self X y = tuned (kt.Hyperband 10 args))
  /\ (CNN.tuner self = Some "bayesian" ->
        CNN.fit self X y = tuned (kt.BayesianOptimization 10 args))
  /\ (CNN.tuner self = Some "random" ->
        CNN.fit self X y = tuned (kt.RandomSearch 10 args))
  /\ (forall name, CNN.tuner self = Some name ->
        ~ In name ["hyperband"; "bayesian"; "random"] ->
        CNN.fit self X y = raise tuner_error /\
        forall X0 y0, exists e, CNN.fit self X0 y0 = raise e).
Proof.
  intros Hk Hclash Hpre Hsplit builder args trained tuned.
  assert (Hfit : CNN.fit self X y =
            (model <- match CNN.tuner self with
                      | None => ModelBuilder.build_basic_model builder Xtr ytr
                      | Some _ => ModelBuilder.build_tuned_model builder Xtr ytr
                      end ;;
             ret (CNN.set_fitted self model))).
  { rewrite fit_train, Hpre; cbn [bind ret]; unfold Stage.train.
    rewrite Hsplit; cbn [bind ret].
    rewrite call_ok by assumption; reflexivity. }
  assert (Htuned : forall call,
            ModelBuilder._get_tuner builder = instantiate call ->
            (model <- ModelBuilder.build_tuned_model builder Xtr ytr ;;
             ret (CNN.set_fitted self model)) = tuned call).
  { intros call Hcall; unfold ModelBuilder.build_tuned_model; rewrite Hcall.
    subst tuned trained; cbn beta.
    destruct (instantiate call) as [e | tuner]; [reflexivity |]; cbn [bind].
    destruct (search_best tuner Xtr ytr _ _) as [e | best]; [reflexivity |].
    cbn [bind]; unfold ModelBuilder.hypermodel; cbn [ModelBuilder.layers
      ModelBuilder.input_shape builder].
    destruct (build_model best _ _) as [e | model]; reflexivity. }
  rewrite Hfit.
  split; [| split; [| split; [| split]]].
  - intros ->; split; [| repeat split].
    unfold ModelBuilder.build_basic_model, ModelBuilder._get_best_weights.
    subst trained; cbn beta zeta.
    destruct (add_layers _) as [e | []]; reflexivity.
  - intros Htuner; rewrite Htuner; apply Htuned.
    unfold ModelBuilder._get_tuner, builder, CNN.tuner_value.
    cbn [ModelBuilder.class_type]; rewrite Htuner; reflexivity.
  - intros Htuner; rewrite Htuner; apply Htuned.
    unfold ModelBuilder._get_tuner, builder, CNN.tuner_value.
    cbn [ModelBuilder.class_type]; rewrite Htuner; reflexivity.
  - intros Htuner; rewrite Htuner; apply Htuned.
    unfold ModelBuilder._get_tuner, builder, CNN.tuner_value.
    cbn [ModelBuilder.class_type]; rewrite Htuner; reflexivity.
  - intros name Htuner Hout; split.
    + rewrite Htuner; unfold ModelBuilder.build_tuned_model.
      rewrite get_tuner_unknown with (name := name);
        [reflexivity | | assumption].
      unfold builder, CNN.tuner_value; cbn [ModelBuilder.class_type].
      now rewrite Htuner.
    + intros X0 y0; rewrite fit_train.
      destruct (CNN._preprocess self X0 (Some y0)) as [e | [T0 [y1 |]]];
        cbn [bind]; try (eexists; reflexivity).
      apply train_unknown_tuner with (name := name); assumption.
Qed.
End Properties.

(** ** The theorems at concrete arrays *)

(** C1 at two samples of three nodes and two channels: one feature
    short, the shape ValueError; with all six columns, an array of shape
    (2, 3, 2). *)
Lemma shape_checked_before_reshape_witness :
  CNN.predict (Stub.estimator 3 2 None "mean") Stub.X_1x5 = raise shape_error /\
  exists T,
    CNN._preprocess (Stub.estimator 3 2 None "mean") Stub.X_2x6 None =
      ret (T, None) /\
    np.shape T = [2; 3; 2].
Proof.
  split.
  - destruct (@shape_checked_before_reshape Stub.libs
                (Stub.estimator 3 2 None "mean") Stub.X_1x5 1 5 eq_refl)
      as [Hbad _].
    apply Hbad; discriminate.
  - destruct (@shape_checked_before_reshape Stub.libs
                (Stub.estimator 3 2 None "mean") Stub.X_2x6 2 6 eq_refl)
      as [_ Hgood].
    destruct (Hgood eq_refl) as [_ Hreshape].
    apply Hreshape with (Xi := Stub.X_2x6);
      [discriminate | discriminate | reflexivity | reflexivity].
Defined.

(** C1 as stated fails: a product equal to the number of columns does not
    keep the reshape from raising.  With six columns of which one was
    never observed, an imputer that leaves that column out hands the
    reshape five columns; and the dimensions -3 and -2 have the product
    six and are refused by the reshape. *)
Lemma reshape_raises_after_the_check :
  np.shape Sample.X_empty_column = [2; 6] /\
  (CNN.n_nodes Sample.estimator_dropping *
   CNN.n_channels Sample.estimator_dropping)%Z = Z.of_nat 6 /\
  CNN._preprocess Sample.estimator_dropping Sample.X_empty_column None =
    raise (ValueError "cannot reshape array into the requested shape") /\
  np.shape Stub.X_2x6 = [2; 6] /\
  (CNN.n_nodes (Stub.estimator (-3) (-2) None "mean") *
   CNN.n_channels (Stub.estimator (-3) (-2) None "mean"))%Z = Z.of_nat 6 /\
  CNN._preprocess (Stub.estimator (-3) (-2) None "mean") Stub.X_2x6 None =
    raise (ValueError "can only specify one unknown dimension").
Proof.
  repeat split.
Qed.

(** C3 at the same estimator and matrix. *)
Lemma reshape_reads_channel_major_witness :
  exists T,
    CNN._preprocess (Stub.estimator 3 2 None "mean") Stub.X_2x6 None =
      ret (T, None) /\
    np.shape T = [2; 3; 2] /\
    forall i n ch, i < 2 -> n < 3 -> ch < 2 ->
      np.item T [i; n; ch] = np.item Stub.X_2x6 [i; ch * 3 + n] /\
      np.item Stub.X_2x6 [i; ch * 3 + n] <> None.
Proof.
  apply (@reshape_reads_channel_major Stub.libs
           (Stub.estimator 3 2 None "mean") Stub.X_2x6 Stub.X_2x6 None None
           2 6 2);
    [reflexivity | reflexivity | discriminate | discriminate
    | reflexivity | reflexivity | reflexivity].
Defined.

(** C4 at three samples whose second target is missing: other values in
    the second row leave [fit] as it is. *)
Lemma fit_drops_rows_with_missing_target_witness :
  CNN.fit (Stub.estimator 3 2 None "mean") Stub.X_3x6' Stub.y_3 =
  CNN.fit (Stub.estimator 3 2 None "mean") Stub.X_3x6 Stub.y_3.
Proof.
  destruct (@fit_drops_rows_with_missing_target Stub.libs
              (Stub.estimator 3 2 None "mean") Stub.X_3x6 Stub.y_3 6
              eq_refl eq_refl)
    as (_ & _ & _ & Hsame).
  apply Hsame; [reflexivity |].
  intros [| [| [| i]]] v Hi Hv; unfold Stub.y_3 in Hi; cbn in Hi.
  - reflexivity.
  - injection Hi as <-; cbv in Hv; discriminate Hv.
  - reflexivity.
  - destruct i; discriminate Hi.
Defined.

(** C5, amended, at a matrix of the declared shape. *)
Lemma predict_unfitted_raises_witness :
  CNN.predict (Stub.estimator 3 2 None "mean") Stub.X_2x6 = raise not_fitted_error.
Proof.
  destruct (@predict_unfitted_raises Stub.libs
              (Stub.estimator 3 2 None "mean") Stub.X_2x6 eq_refl)
    as [_ Hnot].
  eapply Hnot; reflexivity.
Defined.

(** C5 as stated fails: on a matrix one feature short, [predict] on an
    estimator that was never fitted raises the shape ValueError, which is
    not the not-fitted error. *)
Lemma predict_unfitted_shape_error :
  CNN.is_fitted_ (Stub.estimator 3 2 None "mean") = None /\
  CNN.predict (Stub.estimator 3 2 None "mean") Stub.X_1x5 = raise shape_error /\
  CNN.predict (Stub.estimator 3 2 None "mean") Stub.X_1x5 <> raise not_fitted_error.
Proof.
  split; [reflexivity |]; split; [reflexivity | discriminate].
Qed.

(** C9 at a matrix one feature short. *)
Lemma predict_preprocesses_first_witness :
  CNN.predict (Stub.estimator 3 2 None "mean") Stub.X_1x5 = raise shape_error /\
  CNN.predict (Stub.estimator 3 2 None "mean") Stub.X_1x5 <> raise not_fitted_error.
Proof.
  destruct (@predict_preprocesses_first Stub.libs
              (Stub.estimator 3 2 None "mean") Stub.X_1x5 eq_refl)
    as [Hshape _].
  apply (Hshape 1 5 eq_refl); discriminate.
Defined.

(** C10 at two training sets: the fitted estimators preprocess a
    prediction batch alike. *)
Lemma predict_imputes_from_its_batch_witness :
  exists fa fb,
    CNN.fit (Stub.estimator 3 2 None "mean") Stub.X_3x6 Stub.y_3 = ret fa /\
    CNN.fit (Stub.estimator 3 2 None "mean") Stub.X_2x6 [1; 2]%float = ret fb /\
    CNN._preprocess fa Stub.X_3x6 None = CNN._preprocess fb Stub.X_3x6 None.
Proof.
  eexists; eexists; split; [reflexivity |]; split; [reflexivity |].
  apply (@predict_imputes_from_its_batch Stub.libs
           (Stub.estimator 3 2 None "mean") _ _ Stub.X_3x6 Stub.X_2x6
           Stub.y_3 [1; 2]%float Stub.X_3x6 3 6 eq_refl eq_refl eq_refl eq_refl).
Defined.

(** C2 on the code, at three targets of which the second is missing. *)
Lemma score_raises_on_missing_target_witness :
  CNN.score (Stub.estimator 3 2 None "mean") Stub.y_3 [1; 2; 3]%float =
  raise samples_error.
Proof.
  apply (@score_raises_on_missing_target Stub.libs
           (Stub.estimator 3 2 None "mean") Stub.y_3 [1; 2; 3]%float eq_refl).
  apply Exists_cons_tl, Exists_cons_hd; reflexivity.
Defined.

(** C6 at a string that is none of the three. *)
Lemma strategy_validated_witness :
  CNN.__init__ (L := Stub.libs) (PyInt 100) (PyInt 2) (PyInt 50) (PyInt 32)
    PyNone (PyInt 1) (PyFloat 0x1.999999999999ap-3) (PyStr "average")
    (PyInt 200) PyNone PyNone [] = raise strategy_value_error.
Proof.
  destruct (@strategy_validated Stub.libs (PyInt 100) (PyInt 2) (PyInt 50)
              (PyInt 32) PyNone (PyInt 1) (PyFloat 0x1.999999999999ap-3)
              (PyStr "average") (PyInt 200) PyNone PyNone []
              eq_refl eq_refl eq_refl eq_refl eq_refl eq_refl
              (or_introl eq_refl) eq_refl)
    as (_ & Hvalue & _).
  apply (Hvalue "average" eq_refl).
  intros [H | [H | [H | []]]]; discriminate H.
Defined.

(** C7, amended, at a float above one. *)
Lemma test_size_type_validated_witness :
  exists self,
    CNN.__init__ (L := Stub.libs) (PyInt 100) (PyInt 2) (PyInt 50) (PyInt 32)
      PyNone (PyInt 1) (PyFloat 1.5) (PyStr "median") (PyInt 200)
      PyNone PyNone [] = ret self /\
    CNN.test_size self = 1.5%float.
Proof.
  destruct (@test_size_type_validated Stub.libs (PyInt 100) (PyInt 2)
              (PyInt 50) (PyInt 32) PyNone (PyInt 1) (PyFloat 1.5)
              (PyStr "median") (PyInt 200) PyNone PyNone []
              eq_refl eq_refl eq_refl eq_refl eq_refl eq_refl
              (or_introl eq_refl))
    as [_ Hfloat].
  apply (Hfloat 1.5%float "median" eq_refl eq_refl); [| reflexivity].
  left; reflexivity.
Defined.

(** C7 as stated fails: 1.5 is a float outside (0, 1), and construction
    accepts it. *)
Lemma test_size_out_of_range_accepted :
  PrimFloat.ltb 1 1.5 = true /\
  CNN.__init__ (L := Stub.libs) (PyInt 100) (PyInt 2) (PyInt 50) (PyInt 32)
    PyNone (PyInt 1) (PyFloat 1.5) (PyStr "median") (PyInt 200)
    PyNone PyNone [] =
  ret (CNN.mk (L := Stub.libs) 100 2 1 50 32 None 1.5 "median" 200
              PyNone PyNone [] None None None).
Proof.
  split; reflexivity.
Qed.

(** C8, amended, at a tuner name that is not known. *)
Lemma tuner_selection_witness :
  CNN.fit (Stub.estimator 3 2 (Some "grid") "mean") Stub.X_3x6 Stub.y_3 =
  raise tuner_error.
Proof.
  pose proof (fun T Xtr Xte y' ytr yte =>
                @tuner_selection Stub.libs
                  (Stub.estimator 3 2 (Some "grid") "mean") Stub.X_3x6
                  T Xtr Xte Stub.y_3 y' ytr yte eq_refl eq_refl) as Hsel.
  edestruct Hsel as (_ & _ & _ & _ & Hother); [reflexivity | reflexivity |].
  apply (Hother "grid" eq_refl).
  intros [H | [H | [H | []]]]; discriminate H.
Defined.

(** C8 as stated fails.  Construction accepts a string that names no
    tuner.  In [fit] the name is looked at last: with targets that do not
    match the rows the estimator raises IndexError, and with the keyword
    [X_test] among its [tuner_kwargs] it raises TypeError on inputs that
    are in order; neither is the tuner ValueError. *)
Lemma unknown_tuner_not_rejected_first :
  CNN.__init__ (L := Stub.libs) (PyInt 3) (PyInt 2) (PyInt 50) (PyInt 32)
    (PyStr "grid") (PyInt 1) (PyFloat 0x1.999999999999ap-3) (PyStr "mean")
    (PyInt 200) PyNone PyNone [] =
    ret (Stub.estimator 3 2 (Some "grid") "mean") /\
  CNN.fit (Stub.estimator 3 2 (Some "grid") "mean") Stub.X_3x6 [1; 2]%float =
    raise (IndexError "boolean index did not match indexed array along axis 0") /\
  CNN.__init__ (L := Stub.libs) (PyInt 3) (PyInt 2) (PyInt 50) (PyInt 32)
    (PyStr "grid") (PyInt 1) (PyFloat 0x1.999999999999ap-3) (PyStr "mean")
    (PyInt 200) PyNone PyNone [("X_test", PyInt 0)] =
    ret (Sample.with_keyword (Some "grid")) /\
  CNN.fit (Sample.with_keyword (Some "grid")) Stub.X_3x6 Stub.y_3 =
    raise (TypeError "__init__() got multiple values for argument 'X_test'").
Proof.
  repeat split.
Qed.

(** ** The embedding on concrete arrays *)

(** Two samples, three nodes, two channels: columns 0..2 are the nodes of
    the first channel, columns 3..5 those of the second. *)
Example preprocess_2x6 :
  CNN._preprocess (Stub.estimator 3 2 None "mean") Stub.X_2x6 None =
  ret (np.mk [2; 3; 2] [1; 4; 2; 5; 3; 6; 7; 10; 8; 11; 9; 12]%float, None).
Proof. reflexivity. Qed.

(** The value missing in a prediction batch is filled from that batch:
    its column holds 9 and 15 besides, and 12 is put in, though the
    column of the training data holds 3 and 9. *)
Example predict_fills_from_batch :
  exists fitted T,
    CNN.fit (Stub.estimator 3 2 None "mean") Stub.X_2x6 [1; 2]%float =
      ret fitted /\
    CNN._preprocess fitted Stub.X_3x6 None = ret (T, None) /\
    np.item Stub.X_3x6 [0; 2] = Some nan /\
    np.item T [0; 2; 0] = Some 12%float.
Proof.
  eexists; eexists; split; [reflexivity |]; split; [reflexivity |].
  split; reflexivity.
Qed.

(** Two negative dimensions pass the comparison of the product with the
    number of columns, and numpy then refuses them. *)
Example negative_dimensions_refused :
  CNN._preprocess (Stub.estimator (-3) (-2) None "mean") Stub.X_2x6 None =
  raise (ValueError "can only specify one unknown dimension").
Proof. reflexivity. Qed.

(** With all targets present, [score] returns the coefficient the
    library computes. *)
Example score_without_missing_target :
  CNN.score (Stub.estimator 3 2 None "mean") [1; 4; 2]%float [1; 2; 3]%float =
  r2 (Libs := Stub.libs) [1; 4; 2]%float [1; 2; 3]%float.
Proof. reflexivity. Qed.

(** * Further properties of the module *)

Section Coverage.
Context {L : Libs}.

(** ** Construction *)

Lemma check_keras_missing :
  HAS_KERAS = false -> exists msg, _check_keras = raise (ImportError msg).
Proof. intros Hk; unfold _check_keras; rewrite Hk; eexists; reflexivity. Qed.

Lemma check_int_inv (v : pyval) (msg : string) (z : Z) :
  CNN.check_int v msg = ret z -> isinstance_int v = true /\ z = int_value v.
Proof.
  unfold CNN.check_int; destruct (isinstance_int v); [| discriminate].
  unfold ret; intros [= <-]; split; reflexivity.
Qed.

Lemma check_int_fails (v : pyval) (msg : string) :
  isinstance_int v = false -> CNN.check_int v msg = raise (TypeError msg).
Proof. intros Hv; unfold CNN.check_int; now rewrite Hv. Qed.

(** Without Keras nothing can be built: the constructors of [CNN] and
    [ModelBuilder] and [build_model] raise ImportError, whatever their
    arguments. *)
Theorem keras_required :
  HAS_KERAS = false ->
  (forall n_nodes n_channels max_epochs batch_size tuner layers test_size
          strategy random_state directory project_name tuner_kwargs,
     exists msg,
       CNN.__init__ n_nodes n_channels max_epochs batch_size tuner layers
         test_size strategy random_state directory project_name tuner_kwargs =
       raise (ImportError msg))
  /\ (forall class_type input_shape layers max_epochs X_test y_test batch_size
             directory project_name tuner_kwargs,
        exists msg,
          ModelBuilder.__init__ class_type input_shape layers max_epochs
            X_test y_test batch_size directory project_name tuner_kwargs =
          raise (ImportError msg))
  /\ (forall hp conv_layers input_shape,
        exists msg,
          build_model hp conv_layers input_shape = raise (ImportError msg)).
Proof.
  intros Hk; destruct (check_keras_missing Hk) as [msg Hmsg].
  split; [| split]; intros; exists msg.
  - unfold CNN.__init__; now rewrite Hmsg.
  - unfold ModelBuilder.__init__; now rewrite Hmsg.
  - unfold build_model; now rewrite Hmsg.
Qed.

(** What [__init__] returns when it returns: the attributes hold the
    arguments, and the estimator is not fitted. *)
Lemma init_inv
    (n_nodes n_channels max_epochs batch_size tuner layers test_size
     strategy random_state directory project_name : pyval)
    (tuner_kwargs : list (string * pyval)) (self : CNN.t) :
  CNN.__init__ n_nodes n_channels max_epochs batch_size tuner layers
    test_size strategy random_state directory project_name tuner_kwargs =
  ret self ->
  HAS_KERAS = true /\
  isinstance_int n_nodes = true /\
  isinstance_int n_channels = true /\
  isinstance_int layers = true /\
  isinstance_int max_epochs = true /\
  isinstance_int batch_size = true /\
  (tuner = PyNone \/ isinstance_str tuner = true) /\
  isinstance_float test_size = true /\
  (exists s, strategy = PyStr s /\ In s ["median"; "mean"; "knn"]) /\
  isinstance_int random_state = true /\
  self = CNN.mk (int_value n_nodes) (int_value n_channels) (int_value layers)
                (int_value max_epochs) (int_value batch_size)
                (match tuner with PyStr name => Some name | _ => None end)
                (match test_size with PyFloat x => x | _ => 0%float end)
                (match strategy with PyStr s => s | _ => "" end)
                (int_value random_state) directory project_name tuner_kwargs
                None None None.
Proof.
  unfold CNN.__init__, _check_keras.
  destruct HAS_KERAS; [| discriminate]; cbn [bind ret].
  destruct (CNN.check_int n_nodes _) as [e | z1] eqn:H1; [discriminate |].
  apply check_int_inv in H1 as [H1 ->]; cbn [bind].
  destruct (CNN.check_int n_channels _) as [e | z2] eqn:H2; [discriminate |].
  apply check_int_inv in H2 as [H2 ->]; cbn [bind].
  destruct (CNN.check_int layers _) as [e | z3] eqn:H3; [discriminate |].
  apply check_int_inv in H3 as [H3 ->]; cbn [bind].
  destruct (CNN.check_int max_epochs _) as [e | z4] eqn:H4; [discriminate |].
  apply check_int_inv in H4 as [H4 ->]; cbn [bind].
  destruct (CNN.check_int batch_size _) as [e | z5] eqn:H5; [discriminate |].
  apply check_int_inv in H5 as [H5 ->]; cbn [bind].
  assert (Ht : forall (k : option string -> result CNN.t),
             bind match tuner with
                  | PyStr s => ret (Some s)
                  | PyNone => ret None
                  | _ => raise (TypeError "Parameter tuner must be str.")
                  end k = ret self ->
             (tuner = PyNone \/ isinstance_str tuner = true) /\
             k (match tuner with PyStr name => Some name | _ => None end) =
             ret self).
  { intros k; destruct tuner; cbn [bind ret raise]; try discriminate;
      intros Hk; split; auto. }
  intros Hinit; apply Ht in Hinit as [Htuner Hinit].
  destruct test_size as [| | | x | |]; try discriminate; cbn [bind ret] in Hinit.
  destruct strategy as [| | | | s |]; try discriminate.
  destruct (existsb _ _) eqn:Hs; [| discriminate]; cbn [bind ret] in Hinit.
  destruct (CNN.check_int random_state _) as [e | z6] eqn:H6; [discriminate |].
  apply check_int_inv in H6 as [H6 ->]; cbn [bind ret] in Hinit.
  unfold ret in Hinit; injection Hinit as <-.
  repeat (split; [assumption || reflexivity |]).
  split; [exists s; split; [reflexivity | now apply recognised_strategy] |].
  split; [assumption | reflexivity].
Qed.

(** Construction succeeds exactly when Keras is there, the five counts and
    the seed are ints, [tuner] is a string or None, [test_size] is a float
    and [strategy] is one of the three names. *)
Theorem construction_succeeds_iff
    (n_nodes n_channels max_epochs batch_size tuner layers test_size
     strategy random_state directory project_name : pyval)
    (tuner_kwargs : list (string * pyval)) :
  (exists self,
     CNN.__init__ n_nodes n_channels max_epochs batch_size tuner layers
       test_size strategy random_state directory project_name tuner_kwargs =
     ret self)
  <->
  (HAS_KERAS = true /\
   isinstance_int n_nodes = true /\
   isinstance_int n_channels = true /\
   isinstance_int layers = true /\
   isinstance_int max_epochs = true /\
   isinstance_int batch_size = true /\
   (tuner = PyNone \/ isinstance_str tuner = true) /\
   isinstance_float test_size = true /\
   (exists s, strategy = PyStr s /\ In s ["median"; "mean"; "knn"]) /\
   isinstance_int random_state = true).
Proof.
  split.
  - intros [self Hinit].
    pose proof (init_inv _ _ _ _ _ _ _ _ _ _ _ _ Hinit) as H.
    destruct H as (Hk & Hn & Hc & Hl & He & Hb & Ht & Hf & Hs & Hr & _).
    repeat (split; [assumption |]); assumption.
  - intros (Hk & Hn & Hc & Hl & He & Hb & Ht & Hf & [s [-> Hs]] & Hr).
    rewrite init_from_test_size by assumption.
    destruct test_size; try discriminate; cbn [bind ret].
    apply recognised_strategy in Hs; rewrite Hs; cbn [bind ret].
    rewrite check_int_ok by assumption; cbn [bind ret].
    eexists; reflexivity.
Qed.

(** A constructed estimator holds its arguments ([True] and [False] as 1
    and 0) and is not fitted: no model, no hyperparameters, no
    [is_fitted_] attribute. *)
Theorem construction_stores_arguments
    (n_nodes n_channels max_epochs batch_size tuner layers test_size
     strategy random_state directory project_name : pyval)
    (tuner_kwargs : list (string * pyval)) (self : CNN.t) :
  CNN.__init__ n_nodes n_channels max_epochs batch_size tuner layers
    test_size strategy random_state directory project_name tuner_kwargs =
  ret self ->
  CNN.n_nodes self = int_value n_nodes /\
  CNN.n_channels self = int_value n_channels /\
  CNN.layers self = int_value layers /\
  CNN.max_epochs self = int_value max_epochs /\
  CNN.batch_size self = int_value batch_size /\
  CNN.tuner_value self = tuner /\
  PyFloat (CNN.test_size self) = test_size /\
  PyStr (CNN.strategy self) = strategy /\
  CNN.random_state self = int_value random_state /\
  CNN.directory self = directory /\
  CNN.project_name self = project_name /\
  CNN.tuner_kwargs self = tuner_kwargs /\
  CNN.model_ self = None /\
  CNN.best_hps_ self = None /\
  CNN.is_fitted_ self = None.
Proof.
  intros Hinit.
  destruct (init_inv _ _ _ _ _ _ _ _ _ _ _ _ Hinit)
    as (_ & _ & _ & _ & _ & _ & Ht & Hf & [s [-> _]] & _ & ->).
  unfold CNN.tuner_value; cbn.
  destruct test_size; try discriminate.
  repeat (split; [reflexivity |]).
  split.
  - destruct Ht as [-> | Ht]; [reflexivity |].
    destruct tuner; try discriminate; reflexivity.
  - repeat (split; [reflexivity |]); reflexivity.
Qed.

(** Construction raises nothing but ImportError, TypeError and the
    ValueError for an unknown [strategy]. *)
Theorem construction_error_kinds
    (n_nodes n_channels max_epochs batch_size tuner layers test_size
     strategy random_state directory project_name : pyval)
    (tuner_kwargs : list (string * pyval)) (e : exn) :
  CNN.__init__ n_nodes n_channels max_epochs batch_size tuner layers
    test_size strategy random_state directory project_name tuner_kwargs =
  raise e ->
  (exists msg, e = ImportError msg) \/
  (exists msg, e = TypeError msg) \/
  e = strategy_value_error.
Proof.
  unfold CNN.__init__, _check_keras, CNN.check_int, raise.
  destruct HAS_KERAS; cbn [bind ret];
    [| intros [= <-]; left; eexists; reflexivity].
  destruct (isinstance_int n_nodes); cbn [bind ret];
    [| intros [= <-]; right; left; eexists; reflexivity].
  destruct (isinstance_int n_channels); cbn [bind ret];
    [| intros [= <-]; right; left; eexists; reflexivity].
  destruct (isinstance_int layers); cbn [bind ret];
    [| intros [= <-]; right; left; eexists; reflexivity].
  destruct (isinstance_int max_epochs); cbn [bind ret];
    [| intros [= <-]; right; left; eexists; reflexivity].
  destruct (isinstance_int batch_size); cbn [bind ret];
    [| intros [= <-]; right; left; eexists; reflexivity].
  assert (Hlast : forall (x : float) (t : option string),
            (s <- match strategy with
                  | PyStr s =>
                      if existsb (String.eqb s) ["median"; "mean"; "knn"]
                      then ret s
                      else inl strategy_value_error
                  | _ => inl strategy_type_error
                  end ;;
             random_state0 <-
               (if isinstance_int random_state
                then ret (int_value random_state)
                else inl (TypeError "Parameter random_state must be an int.")) ;;
             ret (CNN.mk (int_value n_nodes) (int_value n_channels)
                         (int_value layers) (int_value max_epochs)
                         (int_value batch_size) t x s random_state0 directory
                         project_name tuner_kwargs None None None)) = inl e ->
            (exists msg, e = ImportError msg) \/
            (exists msg, e = TypeError msg) \/ e = strategy_value_error).
  { intros x t.
    destruct strategy as [| | | | s |]; cbn [bind];
      try (intros [= <-]; right; left; eexists; reflexivity).
    destruct (existsb _ _); cbn [bind ret];
      [| intros [= <-]; right; right; reflexivity].
    destruct (isinstance_int random_state); cbn [bind ret];
      [discriminate | intros [= <-]; right; left; eexists; reflexivity]. }
  assert (Hfloat : forall t : option string,
            (x <- match test_size with
                  | PyFloat x => ret x
                  | _ => inl test_size_error
                  end ;;
             s <- match strategy with
                  | PyStr s =>
                      if existsb (String.eqb s) ["median"; "mean"; "knn"]
                      then ret s
                      else inl strategy_value_error
                  | _ => inl strategy_type_error
                  end ;;
             random_state0 <-
               (if isinstance_int random_state
                then ret (int_value random_state)
                else inl (TypeError "Parameter random_state must be an int.")) ;;
             ret (CNN.mk (int_value n_nodes) (int_value n_channels)
                         (int_value layers) (int_value max_epochs)
                         (int_value batch_size) t x s random_state0 directory
                         project_name tuner_kwargs None None None)) = inl e ->
            (exists msg, e = ImportError msg) \/
            (exists msg, e = TypeError msg) \/ e = strategy_value_error).
  { intros t.
    destruct test_size as [| | | x | |]; cbn [bind ret];
      try (intros [= <-]; right; left; eexists; reflexivity).
    apply Hlast. }
  destruct tuner; cbn [bind ret];
    try (intros [= <-]; right; left; eexists; reflexivity); apply Hfloat.
Qed.

(** At construction [tuner] is checked for its type only: a value that is
    neither a string nor None raises the TypeError, and every string is
    accepted and stored, whether or not it names a tuner. *)
Theorem tuner_type_checked_at_construction
    (n_nodes n_channels max_epochs batch_size tuner layers test_size
     strategy random_state directory project_name : pyval)
    (tuner_kwargs : list (string * pyval)) :
  HAS_KERAS = true ->
  isinstance_int n_nodes = true ->
  isinstance_int n_channels = true ->
  isinstance_int layers = true ->
  isinstance_int max_epochs = true ->
  isinstance_int batch_size = true ->
  let init :=
    CNN.__init__ n_nodes n_channels max_epochs batch_size tuner layers
      test_size strategy random_state directory project_name tuner_kwargs in
  (tuner <> PyNone -> isinstance_str tuner = false ->
     init = raise (TypeError "Parameter tuner must be str."))
  /\ (forall name, tuner = PyStr name ->
        isinstance_float test_size = true ->
        (exists s, strategy = PyStr s /\ In s ["median"; "mean"; "knn"]) ->
        isinstance_int random_state = true ->
        exists self, init = ret self /\ CNN.tuner self = Some name).
Proof.
  intros Hk Hn Hc Hl He Hb init; subst init; split.
  - intros Hnone Hstr.
    unfold CNN.__init__, _check_keras; rewrite Hk; cbn [bind ret].
    rewrite !check_int_ok by assumption; cbn [bind ret].
    destruct tuner; try reflexivity; [contradiction | discriminate].
  - intros name -> Hf [s [-> Hs]] Hr.
    rewrite init_from_test_size by (assumption || (right; reflexivity)).
    destruct test_size; try discriminate; cbn [bind ret].
    apply recognised_strategy in Hs; rewrite Hs; cbn [bind ret].
    rewrite check_int_ok by assumption; cbn [bind ret].
    eexists; split; reflexivity.
Qed.

(** An estimator constructed with a string that names no tuner cannot be
    fitted: [fit] raises on every input. *)
Theorem unknown_tuner_fails_in_fit
    (n_nodes n_channels max_epochs batch_size layers test_size
     strategy random_state directory project_name : pyval)
    (tuner_kwargs : list (string * pyval)) (name : string) (self : CNN.t) :
  CNN.__init__ n_nodes n_channels max_epochs batch_size (PyStr name) layers
    test_size strategy random_state directory project_name tuner_kwargs =
  ret self ->
  ~ In name ["hyperband"; "bayesian"; "random"] ->
  forall X y, exists e, CNN.fit self X y = raise e.
Proof.
  intros Hinit Hout X y.
  assert (Htuner : CNN.tuner self = Some name).
  { destruct (init_inv _ _ _ _ _ _ _ _ _ _ _ _ Hinit)
      as (_ & _ & _ & _ & _ & _ & _ & _ & _ & _ & ->); reflexivity. }
  rewrite fit_train.
  destruct (CNN._preprocess self X (Some y)) as [e | [T [y' |]]];
    cbn [bind]; try (eexists; reflexivity).
  apply train_unknown_tuner with (name := name); assumption.
Qed.

(** The int arguments are checked in the order [n_nodes], [n_channels],
    [layers], [max_epochs], [batch_size]: the first that is not an int
    decides the TypeError, whatever the arguments after it are. *)
Theorem int_arguments_checked_in_order
    (n_nodes n_channels max_epochs batch_size tuner layers test_size
     strategy random_state directory project_name : pyval)
    (tuner_kwargs : list (string * pyval)) :
  HAS_KERAS = true ->
  let init :=
    CNN.__init__ n_nodes n_channels max_epochs batch_size tuner layers
      test_size strategy random_state directory project_name tuner_kwargs in
  (isinstance_int n_nodes = false ->
     init = raise (TypeError "Parameter n_nodes must be an integer."))
  /\ (isinstance_int n_nodes = true ->
      isinstance_int n_channels = false ->
      init = raise (TypeError "Parameter n_channels must be an integer."))
  /\ (isinstance_int n_nodes = true ->
      isinstance_int n_channels = true ->
      isinstance_int layers = false ->
      init = raise (TypeError "Parameter layers must be an integer."))
  /\ (isinstance_int n_nodes = true ->
      isinstance_int n_channels = true ->
      isinstance_int layers = true ->
      isinstance_int max_epochs = false ->
      init = raise (TypeError "Parameter max_epochs must be an integer."))
  /\ (isinstance_int n_nodes = true ->
      isinstance_int n_channels = true ->
      isinstance_int layers = true ->
      isinstance_int max_epochs = true ->
      isinstance_int batch_size = false ->
      init = raise (TypeError "Parameter batch_size must be an integer.")).
Proof.
  intros Hk init; subst init.
  unfold CNN.__init__, _check_keras; rewrite Hk; cbn [bind ret].
  repeat split; intros;
    rewrite ?check_int_ok by assumption; cbn [bind ret];
    rewrite check_int_fails by assumption; reflexivity.
Qed.

(** The seed is the last argument checked: with every argument before it
    valid, a [random_state] that is not an int raises its TypeError. *)
Theorem random_state_checked_last
    (n_nodes n_channels max_epochs batch_size tuner layers test_size
     strategy random_state directory project_name : pyval)
    (tuner_kwargs : list (string * pyval)) :
  HAS_KERAS = true ->
  isinstance_int n_nodes = true ->
  isinstance_int n_channels = true ->
  isinstance_int layers = true ->
  isinstance_int max_epochs = true ->
  isinstance_int batch_size = true ->
  tuner = PyNone \/ isinstance_str tuner = true ->
  isinstance_float test_size = true ->
  (exists s, strategy = PyStr s /\ In s ["median"; "mean"; "knn"]) ->
  isinstance_int random_state = false ->
  CNN.__init__ n_nodes n_channels max_epochs batch_size tuner layers
    test_size strategy random_state directory project_name tuner_kwargs =
  raise (TypeError "Parameter random_state must be an int.").
Proof.
  intros Hk Hn Hc Hl He Hb Ht Hf [s [-> Hs]] Hr.
  rewrite init_from_test_size by assumption.
  destruct test_size; try discriminate; cbn [bind ret].
  apply recognised_strategy in Hs; rewrite Hs; cbn [bind ret].
  rewrite check_int_fails by assumption; reflexivity.
Qed.

(** ** From construction to [predict] *)

(** [predict] on an estimator that has only been constructed never
    returns: it raises what preprocessing raises, and the not-fitted error
    once preprocessing has returned. *)
Theorem constructed_estimator_cannot_predict
    (n_nodes n_channels max_epochs batch_size tuner layers test_size
     strategy random_state directory project_name : pyval)
    (tuner_kwargs : list (string * pyval)) (self : CNN.t) :
  CNN.__init__ n_nodes n_channels max_epochs batch_size tuner layers
    test_size strategy random_state directory project_name tuner_kwargs =
  ret self ->
  forall X,
    (forall p, CNN.predict self X <> ret p) /\
    (forall T, CNN._preprocess self X None = ret T ->
               CNN.predict self X = raise not_fitted_error).
Proof.
  intros Hinit X.
  assert (Hnot : CNN.is_fitted_ self = None).
  { destruct (init_inv _ _ _ _ _ _ _ _ _ _ _ _ Hinit)
      as (_ & _ & _ & _ & _ & _ & _ & _ & _ & _ & ->); reflexivity. }
  rewrite (predict_unfitted self X Hnot); split.
  - intros p; destruct (CNN._preprocess self X None); discriminate.
  - intros T ->; reflexivity.
Qed.

(** ** Edge cases of [_preprocess] *)

(** [_preprocess] looks at the second axis first.  An array with fewer than
    two axes raises IndexError, in [fit] and [predict] too; with two axes
    or more, a product that differs from the length of the second axis
    raises the shape ValueError; an array with more than two axes and the
    right second axis raises the ValueError that asks for a 2D matrix. *)
Theorem preprocess_rejects_other_dimensions (self : CNN.t) (X : np.ndarray) :
  (np.ndim X < 2 ->
     (forall y, CNN._preprocess self X y =
                raise (IndexError "tuple index out of range")) /\
     (forall y, CNN.fit self X y = raise (IndexError "tuple index out of range")) /\
     CNN.predict self X = raise (IndexError "tuple index out of range"))
  /\ (forall c y, nth_error (np.shape X) 1 = Some c ->
        (CNN.n_nodes self * CNN.n_channels self)%Z <> Z.of_nat c ->
        CNN._preprocess self X y = raise shape_error)
  /\ (forall c y, nth_error (np.shape X) 1 = Some c ->
        (CNN.n_nodes self * CNN.n_channels self)%Z = Z.of_nat c ->
        2 < np.ndim X ->
        CNN._preprocess self X y =
        raise (ValueError "Expected X to be a 2D matrix.")).
Proof.
  split; [| split].
  - intros Hdim.
    assert (Hpre : forall y, CNN._preprocess self X y =
                             raise (IndexError "tuple index out of range")).
    { intros y; unfold CNN._preprocess, CNN.shape_at.
      replace (nth_error (np.shape X) 1) with (@None nat); [reflexivity |].
      symmetry; apply nth_error_None; unfold np.ndim in Hdim; lia. }
    split; [assumption |]; split.
    + intros y; rewrite fit_train, Hpre; reflexivity.
    + unfold CNN.predict; rewrite Hpre; reflexivity.
  - intros c y Hcols Hneq; apply preprocess_mismatch with (c := c); assumption.
  - intros c y Hcols Hprod Hdim.
    unfold CNN._preprocess, CNN.shape_at; rewrite Hcols; cbn [bind ret].
    rewrite Hprod, Z.eqb_refl; cbn [negb].
    destruct (Nat.ltb_spec 2 (np.ndim X)); [reflexivity | lia].
Qed.

(** Targets that are not one per row stop [fit] before the imputer is
    reached: the boolean mask does not fit the rows, and [_preprocess] and
    [fit] raise IndexError. *)
Theorem targets_must_match_rows (self : CNN.t) (X : np.ndarray)
    (y : np.vector) (r c : nat) :
  np.shape X = [r; c] ->
  (CNN.n_nodes self * CNN.n_channels self)%Z = Z.of_nat c ->
  length y <> r ->
  CNN._preprocess self X (Some y) =
    raise (IndexError "boolean index did not match indexed array along axis 0")
  /\ CNN.fit self X y =
     raise (IndexError "boolean index did not match indexed array along axis 0").
Proof.
  intros Hshape Hprod Hlen.
  assert (Hpre : CNN._preprocess self X (Some y) =
            raise (IndexError
                     "boolean index did not match indexed array along axis 0")).
  { rewrite preprocess_stages with (r := r) (c := c) by assumption.
    unfold Stage.clean, np.getitem_rows; rewrite Hshape, mask_length.
    destruct (Nat.eqb_spec (length y) r); [contradiction | reflexivity]. }
  split; [assumption |].
  rewrite fit_train, Hpre; reflexivity.
Qed.

Lemma kept_targets_all (y : np.vector) :
  Forall (fun v => is_nan v = false) y -> Stage.kept_targets y = y.
Proof.
  unfold Stage.kept_targets.
  induction 1 as [| v y Hv _ IH]; [reflexivity |].
  cbn [filter]; rewrite Hv; cbn [negb]; now rewrite IH.
Qed.

Lemma kept_rows_all (y : np.vector) (w : nat) (d : list float) :
  Forall (fun v => is_nan v = false) y ->
  length d = length y * w ->
  concat (map fst (filter (fun p => negb (is_nan (snd p)))
                          (combine (Stage.rows (length y) w d) y))) = d
  /\ length (map fst (filter (fun p => negb (is_nan (snd p)))
                            (combine (Stage.rows (length y) w d) y))) = length y.
Proof.
  intros Hall; revert d.
  induction Hall as [| v y Hv _ IH]; intros d Hlen.
  - destruct d; [split; reflexivity | discriminate].
  - cbn [length Stage.rows combine filter snd]; rewrite Hv.
    cbn [negb map fst concat length].
    destruct (IH (skipn w d)) as [Hdata Hcount].
    { rewrite length_skipn; cbn [length] in Hlen; lia. }
    rewrite Hdata, Hcount, firstn_skipn; split; reflexivity.
Qed.

Lemma drop_missing_all (X : np.ndarray) (y : np.vector) (c : nat) :
  np.shape X = [length y; c] ->
  np.wf X ->
  Forall (fun v => is_nan v = false) y ->
  Stage.drop_missing X y = X.
Proof.
  intros Hshape Hwf Hall.
  unfold Stage.drop_missing, Stage.kept_rows.
  destruct X as [sh d]; cbn [np.shape np.data] in *; subst sh; cbn [hd tl].
  destruct (@kept_rows_all y (np.prod [c]) d Hall) as [Hdata Hcount].
  { unfold np.wf, np.size in Hwf; cbn [np.shape np.data np.prod fold_right] in *.
    lia. }
  now rewrite Hdata, Hcount.
Qed.

(** When no target is missing the mask removes nothing: the imputer is
    fit on all of [X], and all of [y] goes on to [check_X_y]. *)
Theorem no_missing_target_keeps_all_rows (self : CNN.t) (X : np.ndarray)
    (y : np.vector) (c : nat) :
  np.shape X = [length y; c] ->
  np.wf X ->
  (CNN.n_nodes self * CNN.n_channels self)%Z = Z.of_nat c ->
  Forall (fun v => is_nan v = false) y ->
  np.getitem_rows X (np.logical_not (np.isnan y)) = ret X
  /\ np.getitem_mask y (np.logical_not (np.isnan y)) = ret y
  /\ CNN._preprocess self X (Some y) =
     (imp <- SimpleImputer_fit (CNN.strategy self) X ;;
      Xi <- SimpleImputer_transform imp X ;;
      '(Xc, yc) <- check_X_y Xi y ;;
      T <- Stage.to_channels self Xc ;;
      ret (T, Some yc)).
Proof.
  intros Hshape Hwf Hprod Hall.
  rewrite getitem_rows_kept with (c := c) by assumption.
  rewrite getitem_mask_kept.
  rewrite preprocess_kept with (c := c) by assumption.
  rewrite drop_missing_all with (c := c) by assumption.
  rewrite kept_targets_all by assumption.
  repeat split; reflexivity.
Qed.

Lemma kept_rows_none (y : np.vector) (rows : list (list float)) :
  Forall (fun v => is_nan v = true) y ->
  filter (fun p : list float * float => negb (is_nan (snd p))) (combine rows y) = [].
Proof.
  intros Hall; revert rows.
  induction Hall as [| v y Hv _ IH]; intros rows.
  - destruct rows; reflexivity.
  - destruct rows as [| row rows]; [reflexivity |].
    cbn [combine filter snd]; rewrite Hv; cbn [negb]; apply IH.
Qed.

(** When every target is missing no row is left, and nothing stops
    [_preprocess] before the imputer: it is fit on a matrix of zero rows,
    and [check_X_y] is given no target. *)
Theorem all_targets_missing_leaves_no_row (self : CNN.t) (X : np.ndarray)
    (y : np.vector) (c : nat) :
  np.shape X = [length y; c] ->
  (CNN.n_nodes self * CNN.n_channels self)%Z = Z.of_nat c ->
  Forall (fun v => is_nan v = true) y ->
  CNN._preprocess self X (Some y) =
  (imp <- SimpleImputer_fit (CNN.strategy self) (np.mk [0; c] []) ;;
   Xi <- SimpleImputer_transform imp (np.mk [0; c] []) ;;
   '(Xc, yc) <- check_X_y Xi [] ;;
   T <- Stage.to_channels self Xc ;;
   ret (T, Some yc)).
Proof.
  intros Hshape Hprod Hall.
  rewrite preprocess_kept with (c := c) by assumption.
  assert (Hrows : Stage.drop_missing X y = np.mk [0; c] []).
  { unfold Stage.drop_missing, Stage.kept_rows.
    rewrite kept_rows_none by assumption; now rewrite Hshape. }
  assert (Hy : Stage.kept_targets y = []).
  { unfold Stage.kept_targets; clear Hshape Hrows.
    induction Hall as [| v y Hv _ IH]; [reflexivity |].
    cbn [filter]; now rewrite Hv. }
  now rewrite Hrows, Hy.
Qed.

(** ** The array handed to the model *)

Lemma item_2d (X : np.ndarray) (s c i col : nat) :
  np.shape X = [s; c] -> i < s -> col < c ->
  np.item X [i; col] = nth_error (np.data X) (i * c + col).
Proof.
  intros Hshape Hi Hcol; unfold np.item; rewrite Hshape.
  cbn [np.in_bounds np.ravel np.prod fold_right].
  destruct (Nat.ltb_spec i s); [| lia].
  destruct (Nat.ltb_spec col c); [| lia].
  cbn [andb]; f_equal; lia.
Qed.

(** The reshape loses nothing: two well-formed matrices of the same shape
    that give the same array are the same matrix. *)
Theorem to_channels_injective (self : CNN.t) (X X' : np.ndarray) (s c : nat) :
  np.shape X = [s; c] ->
  np.shape X' = [s; c] ->
  np.wf X ->
  np.wf X' ->
  (CNN.n_nodes self * CNN.n_channels self)%Z = Z.of_nat c ->
  (0 <= CNN.n_nodes self)%Z ->
  (0 <= CNN.n_channels self)%Z ->
  Stage.to_channels self X = Stage.to_channels self X' ->
  X = X'.
Proof.
  intros Hshape Hshape' Hwf Hwf' Hprod Hn Hc Heq.
  set (N := Z.to_nat (CNN.n_nodes self)).
  set (C := Z.to_nat (CNN.n_channels self)).
  assert (Hcols : c = C * N) by (subst N C; nia).
  rewrite to_channels_value with (s := s) (c := c) in Heq by assumption.
  rewrite to_channels_value with (s := s) (c := c) in Heq by assumption.
  fold N C in Heq.
  assert (HT : forall idx,
            np.item (np.mk [s; N; C]
                       (map (fun p => nth (np.ravel [s; C; N]
                                             (np.swap 1 2 (np.unravel [s; N; C] p)))
                                          (np.data X) nan)
                            (seq 0 (np.prod [s; N; C])))) idx =
            np.item (np.mk [s; N; C]
                       (map (fun p => nth (np.ravel [s; C; N]
                                             (np.swap 1 2 (np.unravel [s; N; C] p)))
                                          (np.data X') nan)
                            (seq 0 (np.prod [s; N; C])))) idx).
  { intros idx; unfold ret in Heq; congruence. }
  assert (Hitems : forall i col, i < s -> col < c ->
            np.item X [i; col] = np.item X' [i; col]).
  { intros i col Hi Hcol.
    assert (HN : N <> 0) by (intros H0; rewrite H0 in Hcols; lia).
    assert (Hch : col / N < C).
    { apply Nat.Div0.div_lt_upper_bound; lia. }
    assert (Hnode : col mod N < N) by (apply Nat.mod_upper_bound; assumption).
    assert (Hsplit : col / N * N + col mod N = col).
    { rewrite (Nat.div_mod_eq col N) at 3; lia. }
    assert (HsX : np.shape X = [s; C * N]) by congruence.
    assert (HsX' : np.shape X' = [s; C * N]) by congruence.
    destruct (@channels_item X s N C i (col mod N) (col / N)
                HsX Hwf Hi Hnode Hch) as [H1 _].
    destruct (@channels_item X' s N C i (col mod N) (col / N)
                HsX' Hwf' Hi Hnode Hch) as [H2 _].
    rewrite Hsplit in H1, H2.
    rewrite <- H1, <- H2; apply HT. }
  assert (Hlen : forall Y, np.shape Y = [s; c] -> np.wf Y ->
            length (np.data Y) = s * c).
  { intros Y HY HwfY; unfold np.wf, np.size in HwfY; rewrite HY in HwfY.
    cbn [np.prod fold_right] in HwfY; lia. }
  assert (Hbuf : np.data X = np.data X').
  { apply nth_error_ext; intros q.
    destruct (Nat.lt_ge_cases q (s * c)) as [Hq | Hq].
    - assert (Hc0 : c <> 0) by (intros H0; rewrite H0 in Hq; lia).
      assert (Hi : q / c < s) by (apply Nat.Div0.div_lt_upper_bound; lia).
      assert (Hcol : q mod c < c) by (apply Nat.mod_upper_bound; assumption).
      specialize (Hitems (q / c) (q mod c) Hi Hcol).
      rewrite (item_2d X Hshape Hi Hcol) in Hitems.
      rewrite (item_2d X' Hshape' Hi Hcol) in Hitems.
      replace (q / c * c + q mod c) with q in Hitems
        by (rewrite (Nat.div_mod_eq q c) at 1; lia).
      exact Hitems.
    - rewrite (proj2 (nth_error_None _ _)) by (rewrite Hlen; assumption).
      rewrite (proj2 (nth_error_None _ _)) by (rewrite Hlen; assumption).
      reflexivity. }
  destruct X, X'; cbn [np.shape np.data] in *; congruence.
Qed.

(** ** [predict] and [fit] on a fitted estimator *)

(** [predict] drops the axes of length one from what the model returns:
    predictions of shape (n, 1) come back with shape (n), and for a single
    sample as an array without axes. *)
Theorem predict_squeezes_predictions (self : CNN.t) (X T P : np.ndarray)
    (yo : option np.vector) (m : Model) (n : nat) :
  CNN.is_fitted_ self <> None ->
  CNN.model_ self = Some m ->
  CNN._preprocess self X None = ret (T, yo) ->
  model_predict m T = ret P ->
  np.shape P = [n; 1] ->
  CNN.predict self X = ret (np.mk (if n =? 1 then [] else [n]) (np.data P)).
Proof.
  intros Hfitted Hmodel Hpre Hpred HP.
  unfold CNN.predict, CNN.check_is_fitted; rewrite Hpre; cbn [bind ret].
  destruct (CNN.is_fitted_ self); [| contradiction]; cbn [bind ret].
  rewrite Hmodel, Hpred; cbn [bind ret].
  unfold np.squeeze; rewrite HP; cbn [filter Nat.eqb negb].
  destruct (n =? 1); reflexivity.
Qed.

(** A successful [fit] sets the model and [is_fitted_] and nothing else:
    every argument of the constructor is as it was, and [best_hps_] is
    left as it was, with a tuner too. *)
Theorem fit_keeps_attributes (self fitted : CNN.t) (X : np.ndarray)
    (y : np.vector) :
  CNN.fit self X y = ret fitted ->
  CNN.n_nodes fitted = CNN.n_nodes self /\
  CNN.n_channels fitted = CNN.n_channels self /\
  CNN.layers fitted = CNN.layers self /\
  CNN.max_epochs fitted = CNN.max_epochs self /\
  CNN.batch_size fitted = CNN.batch_size self /\
  CNN.tuner fitted = CNN.tuner self /\
  CNN.test_size fitted = CNN.test_size self /\
  CNN.strategy fitted = CNN.strategy self /\
  CNN.random_state fitted = CNN.random_state self /\
  CNN.directory fitted = CNN.directory self /\
  CNN.project_name fitted = CNN.project_name self /\
  CNN.tuner_kwargs fitted = CNN.tuner_kwargs self /\
  CNN.best_hps_ fitted = CNN.best_hps_ self /\
  CNN.is_fitted_ fitted = Some true /\
  CNN.model_ fitted <> None.
Proof.
  intros Hfit; destruct (fit_sets_model _ _ _ Hfit) as [m ->].
  cbn; repeat (split; [reflexivity |]); discriminate.
Qed.

(** Fitting again starts from scratch: on an estimator that was fitted
    before, [fit] does what it does on the estimator before that fit. *)
Theorem refit_starts_from_scratch (self fitted : CNN.t) (Xa : np.ndarray)
    (ya : np.vector) :
  CNN.fit self Xa ya = ret fitted ->
  forall X y, CNN.fit fitted X y = CNN.fit self X y.
Proof.
  intros Hfit X y; destruct (fit_sets_model _ _ _ Hfit) as [m ->].
  reflexivity.
Qed.

(** ** [score] *)

(** [score] compares the targets that are present with all of [y_hat]:
    it returns the coefficient of determination of the two when they are
    equally many, and raises otherwise.  With no target missing it is
    [r2_score] of its two arguments. *)
Theorem score_compares_present_targets (self : CNN.t)
    (y_test y_hat : np.vector) :
  (length (Stage.kept_targets y_test) = length y_hat ->
     CNN.score self y_test y_hat = r2 (Stage.kept_targets y_test) y_hat)
  /\ (length (Stage.kept_targets y_test) <> length y_hat ->
        CNN.score self y_test y_hat = raise samples_error)
  /\ (Forall (fun v => is_nan v = false) y_test ->
        CNN.score self y_test y_hat = sklearn.r2_score y_test y_hat).
Proof.
  unfold CNN.score; rewrite getitem_mask_kept; cbn [bind ret].
  unfold sklearn.r2_score; split; [| split].
  - intros ->; now rewrite Nat.eqb_refl.
  - intros Hneq.
    destruct (Nat.eqb_spec (length (Stage.kept_targets y_test)) (length y_hat));
      [contradiction | reflexivity].
  - intros Hall; now rewrite kept_targets_all.
Qed.

(** ** The architectures *)

Lemma conv_blocks_count (hp : HyperParameters) (idx : list nat) :
  length (flat_map (conv_block hp) idx) = 2 * length idx /\
  length (filter Layer.is_conv (flat_map (conv_block hp) idx)) = length idx /\
  length (filter Layer.is_pool (flat_map (conv_block hp) idx)) = length idx.
Proof.
  induction idx as [| i idx [IH1 [IH2 IH3]]]; [repeat split; reflexivity |].
  cbn [flat_map conv_block app filter Layer.is_conv Layer.is_pool length].
  rewrite IH1, IH2, IH3; repeat split; lia.
Qed.

(** A model that [build_model] returns has one convolution with the
    input shape, then [conv_layers - 1] pairs of a convolution and a
    pooling layer, then the six closing layers.  A [conv_layers] of one or
    less, zero and negative numbers too, asks for the model with the
    single convolution. *)
Theorem build_model_layer_counts (hp : HyperParameters) (conv_layers : Z)
    (input_shape : list nat) (m : keras.Sequential) :
  build_model hp conv_layers input_shape = ret m ->
  length (keras.layers m) = 7 + 2 * Z.to_nat (conv_layers - 1) /\
  length (filter Layer.is_conv (keras.layers m)) =
    1 + Z.to_nat (conv_layers - 1) /\
  length (filter Layer.is_pool (keras.layers m)) =
    Z.to_nat (conv_layers - 1) /\
  hd keras.Flatten (keras.layers m) =
    keras.Conv1D (hp_Int hp "init_conv_filters" 32 512 32)
                 (hp_Int hp "init_conv_kernel" 1 4 1) "relu" (Some input_shape) /\
  last (keras.layers m) keras.Flatten = keras.Dense 1 "linear" None /\
  add_layers m = ret tt /\
  ((conv_layers <= 1)%Z ->
     build_model hp conv_layers input_shape = build_model hp 1 input_shape).
Proof.
  assert (Hone : (conv_layers <= 1)%Z ->
            build_model hp conv_layers input_shape =
            build_model hp 1 input_shape).
  { intros Hle; unfold build_model.
    replace (Z.to_nat (conv_layers - 1)) with (Z.to_nat (1 - 1)) by lia.
    reflexivity. }
  revert Hone; generalize (build_model hp 1 input_shape); intros one Hone.
  unfold build_model, _check_keras in *.
  destruct HAS_KERAS; [| discriminate]; cbn [bind ret] in *.
  destruct (add_layers _) as [e | []] eqn:Hadd; [discriminate |].
  cbn [bind ret]; unfold ret; intros [= <-]; cbn [keras.layers].
  destruct (conv_blocks_count hp (seq 0 (Z.to_nat (conv_layers - 1))))
    as [Hlen [Hconv Hpool]].
  rewrite length_seq in Hlen, Hconv, Hpool.
  repeat split.
  - cbn [length]; rewrite length_app, Hlen; cbn [length]; lia.
  - cbn [filter Layer.is_conv length].
    rewrite filter_app, length_app, Hconv; cbn; lia.
  - cbn [filter Layer.is_pool].
    rewrite filter_app, length_app, Hpool; cbn; lia.
  - match goal with
    | |- last (?a :: ?bs ++ [?l1; ?l2; ?l3; ?l4; ?l5; ?l6]) _ = _ =>
        change (a :: bs ++ [l1; l2; l3; l4; l5; l6])
          with ((a :: bs) ++ [l1; l2; l3; l4; l5] ++ [l6])
    end.
    rewrite app_assoc, last_last; reflexivity.
  - exact Hadd.
  - exact Hone.
Qed.

Lemma str_injective (i j : nat) : str i = str j -> i = j.
Proof.
  unfold str; intros Heq.
  assert (Hnon : forall n, Nat.to_uint n <> Decimal.Nil).
  { intros n; rewrite <- (DecimalNat.Unsigned.of_to n) at 1.
    rewrite DecimalNat.Unsigned.to_of; apply DecimalFacts.unorm_nonnil. }
  apply DecimalNat.Unsigned.to_uint_inj.
  assert (Hsome : Some (Nat.to_uint i) = Some (Nat.to_uint j)).
  { rewrite <- (DecimalString.NilZero.usu (Nat.to_uint i) (Hnon i)).
    rewrite <- (DecimalString.NilZero.usu (Nat.to_uint j) (Hnon j)).
    now rewrite Heq. }
  now injection Hsome.
Qed.

(** The hyperparameters of different rounds of the loop in [build_model]
    have different names, so no round reads the choice made for
    another. *)
Theorem loop_hyperparameter_names_distinct (i j : nat) :
  (("conv_filters" ++ str i)%string = ("conv_filters" ++ str j)%string -> i = j)
  /\ (("conv_kernel" ++ str i)%string = ("conv_kernel" ++ str j)%string -> i = j)
  /\ ("conv_filters" ++ str i)%string <> ("conv_kernel" ++ str j)%string.
Proof.
  split; [| split].
  - cbn [String.append]; intros [= Heq]; now apply str_injective.
  - cbn [String.append]; intros [= Heq]; now apply str_injective.
  - cbn [String.append]; intros [=].
Qed.

(** ** The choice of tuner *)

(** [_get_tuner] returns a tuner for 'hyperband', 'bayesian' and 'random'
    only; on a value that is not a string it raises the TypeError without
    a message, and so does [build_tuned_model]. *)
Theorem get_tuner_known_names_only (builder : ModelBuilder.t) :
  (forall t, ModelBuilder._get_tuner builder = ret t ->
     exists name,
       ModelBuilder.class_type builder = PyStr name /\
       In name ["hyperband"; "bayesian"; "random"])
  /\ (isinstance_str (ModelBuilder.class_type builder) = false ->
        ModelBuilder._get_tuner builder = raise (TypeError "") /\
        forall X y,
          ModelBuilder.build_tuned_model builder X y = raise (TypeError "")).
Proof.
  split.
  - intros t; unfold ModelBuilder._get_tuner.
    destruct (ModelBuilder.class_type builder) as [| | | | name |];
      try discriminate.
    destruct (String.eqb_spec name "hyperband") as [-> | _];
      [intros _; eexists; split; [reflexivity | cbn; tauto] |].
    destruct (String.eqb_spec name "bayesian") as [-> | _];
      [intros _; eexists; split; [reflexivity | cbn; tauto] |].
    destruct (String.eqb_spec name "random") as [-> | _];
      [intros _; eexists; split; [reflexivity | cbn; tauto] |].
    discriminate.
  - intros Hstr.
    assert (Hget : ModelBuilder._get_tuner builder = raise (TypeError "")).
    { unfold ModelBuilder._get_tuner.
      destruct (ModelBuilder.class_type builder); try reflexivity; discriminate. }
    split; [assumption |].
    intros X y; unfold ModelBuilder.build_tuned_model; now rewrite Hget.
Qed.

(** Without a tuner, [layers], [directory] and [project_name] play no
    part, and neither do the keywords of [tuner_kwargs] as long as none
    names a parameter of [ModelBuilder]: two such estimators that agree on
    the other arguments raise the same exception or come out of [fit]
    with the same model. *)
Theorem basic_fit_ignores_tuner_options (self self' : CNN.t)
    (X : np.ndarray) (y : np.vector) :
  CNN.tuner self = None ->
  CNN.tuner self' = None ->
  ModelBuilder.clash (CNN.tuner_kwargs self) = None ->
  ModelBuilder.clash (CNN.tuner_kwargs self') = None ->
  CNN.n_nodes self' = CNN.n_nodes self ->
  CNN.n_channels self' = CNN.n_channels self ->
  CNN.strategy self' = CNN.strategy self ->
  CNN.test_size self' = CNN.test_size self ->
  CNN.random_state self' = CNN.random_state self ->
  CNN.max_epochs self' = CNN.max_epochs self ->
  CNN.batch_size self' = CNN.batch_size self ->
  match CNN.fit self X y, CNN.fit self' X y with
  | inr fitted, inr fitted' => CNN.model_ fitted' = CNN.model_ fitted
  | inl e, inl e' => e' = e
  | _, _ => False
  end.
Proof.
  intros Ht Ht' Hkw Hkw' Hn Hc Hs Hts Hrs He Hb.
  rewrite !fit_train.
  rewrite (preprocess_reads self self' X (Some y) Hn Hc Hs).
  destruct (CNN._preprocess self X (Some y)) as [e | [T [y' |]]];
    cbn [bind]; try reflexivity.
  unfold Stage.train; rewrite Hts, Hrs, Ht, Ht'.
  destruct (train_test_split T y' _ _) as [e | [[[Xtr Xte] ytr] yte]];
    cbn [bind]; [reflexivity |].
  unfold ModelBuilder.call; rewrite Hkw, Hkw'.
  unfold ModelBuilder.__init__.
  destruct _check_keras as [e | []]; cbn [bind ret]; [reflexivity |].
  unfold ModelBuilder.build_basic_model, ModelBuilder._get_best_weights.
  cbn [ModelBuilder.max_epochs ModelBuilder.batch_size ModelBuilder.X_test
       ModelBuilder.y_test].
  rewrite He, Hb.
  destruct (add_layers _) as [e | []]; cbn [bind]; [reflexivity |].
  destruct (fit_best_weights _ Xtr ytr _ _ _) as [e | m]; reflexivity.
Qed.

Lemma clash_found (kwargs : list (string * pyval)) (name : string) (v : pyval) :
  In (name, v) kwargs ->
  In name ModelBuilder.parameters ->
  exists kv, ModelBuilder.clash kwargs = Some kv.
Proof.
  intros Hin Hname; unfold ModelBuilder.clash.
  destruct (find _ kwargs) as [kv |] eqn:Hfind; [eexists; reflexivity |].
  pose proof (find_none _ _ Hfind _ Hin) as Hno; cbn [fst] in Hno.
  assert (Hyes : existsb (String.eqb name) ModelBuilder.parameters = true).
  { apply existsb_exists; exists name; split;
      [assumption | apply String.eqb_refl]. }
  congruence.
Qed.

(** A keyword in [tuner_kwargs] that names a parameter of [ModelBuilder]
    (the constructor of [CNN] lets [class_type], [input_shape], [X_test]
    and [y_test] through) stops [fit], with a tuner or without: once the
    inputs are preprocessed and split the call of [ModelBuilder] raises
    TypeError, and on no input does [fit] return. *)
Theorem clashing_keyword_stops_fit (self : CNN.t) (X T Xtr Xte : np.ndarray)
    (y y' ytr yte : np.vector) (name : string) (v : pyval) :
  In (name, v) (CNN.tuner_kwargs self) ->
  In name ModelBuilder.parameters ->
  CNN._preprocess self X (Some y) = ret (T, Some y') ->
  train_test_split T y' (CNN.test_size self) (CNN.random_state self) =
    ret (Xtr, Xte, ytr, yte) ->
  (exists msg, CNN.fit self X y = raise (TypeError msg)) /\
  (forall X0 y0, exists e, CNN.fit self X0 y0 = raise e).
Proof.
  intros Hin Hname Hpre Hsplit.
  destruct (clash_found _ _ Hin Hname) as [kv Hclash].
  split.
  - rewrite fit_train, Hpre; cbn [bind ret]; unfold Stage.train.
    rewrite Hsplit; cbn [bind ret].
    unfold ModelBuilder.call; rewrite Hclash; eexists; reflexivity.
  - intros X0 y0; rewrite fit_train.
    destruct (CNN._preprocess self X0 (Some y0)) as [e | [T0 [y1 |]]];
      cbn [bind]; try (eexists; reflexivity).
    unfold Stage.train.
    destruct (train_test_split T0 y1 _ _) as [e | [[[Xtr0 Xte0] ytr0] yte0]];
      cbn [bind]; [eexists; reflexivity |].
    unfold ModelBuilder.call; rewrite Hclash; eexists; reflexivity.
Qed.
End Coverage.

(** ** The further properties at concrete inputs *)

Lemma keras_required_witness :
  exists msg,
    CNN.__init__ (L := Sample.no_keras) (PyInt 100) (PyInt 2) (PyInt 50)
      (PyInt 32) PyNone (PyInt 1) (PyFloat 0x1.999999999999ap-3)
      (PyStr "median") (PyInt 200) PyNone PyNone [] =
    raise (ImportError msg).
Proof.
  destruct (@keras_required Sample.no_keras eq_refl) as [Hcnn _].
  apply Hcnn.
Defined.

(** [True] counts as an int. *)
Lemma construction_succeeds_iff_witness :
  exists self,
    CNN.__init__ (L := Stub.libs) (PyBool true) (PyInt 6) (PyInt 50)
      (PyInt 32) PyNone (PyInt 1) (PyFloat 0x1.999999999999ap-3)
      (PyStr "knn") (PyInt 200) PyNone PyNone [] = ret self.
Proof.
  apply (proj2 (@construction_succeeds_iff Stub.libs (PyBool true) (PyInt 6)
                  (PyInt 50) (PyInt 32) PyNone (PyInt 1)
                  (PyFloat 0x1.999999999999ap-3) (PyStr "knn") (PyInt 200)
                  PyNone PyNone [])).
  repeat (split; [reflexivity |]).
  split; [left; reflexivity |].
  split; [reflexivity |].
  split; [| reflexivity].
  exists "knn"; split; [reflexivity | cbn; tauto].
Defined.

Lemma construction_stores_arguments_witness :
  CNN.n_nodes (Stub.estimator 100 2 None "median") = 100%Z /\
  CNN.model_ (Stub.estimator 100 2 None "median") = None /\
  CNN.is_fitted_ (Stub.estimator 100 2 None "median") = None.
Proof.
  destruct (@construction_stores_arguments Stub.libs (PyInt 100) (PyInt 2)
              (PyInt 50) (PyInt 32) PyNone (PyInt 1)
              (PyFloat 0x1.999999999999ap-3) (PyStr "median") (PyInt 200)
              PyNone PyNone [] (Stub.estimator 100 2 None "median") eq_refl)
    as (Hn & _ & _ & _ & _ & _ & _ & _ & _ & _ & _ & _ & Hm & _ & Hf).
  split; [exact Hn |]; split; [exact Hm | exact Hf].
Defined.

Lemma construction_error_kinds_witness :
  (exists msg, TypeError "Parameter n_nodes must be an integer." = ImportError msg) \/
  (exists msg, TypeError "Parameter n_nodes must be an integer." = TypeError msg) \/
  TypeError "Parameter n_nodes must be an integer." = strategy_value_error.
Proof.
  apply (@construction_error_kinds Stub.libs (PyStr "100") (PyInt 2) (PyInt 50)
           (PyInt 32) PyNone (PyInt 1) (PyFloat 0x1.999999999999ap-3)
           (PyStr "median") (PyInt 200) PyNone PyNone []).
  reflexivity.
Defined.

Lemma tuner_type_checked_at_construction_witness :
  CNN.__init__ (L := Stub.libs) (PyInt 100) (PyInt 2) (PyInt 50) (PyInt 32)
    (PyInt 3) (PyInt 1) (PyFloat 0x1.999999999999ap-3) (PyStr "median")
    (PyInt 200) PyNone PyNone [] =
  raise (TypeError "Parameter tuner must be str.").
Proof.
  destruct (@tuner_type_checked_at_construction Stub.libs (PyInt 100) (PyInt 2)
              (PyInt 50) (PyInt 32) (PyInt 3) (PyInt 1)
              (PyFloat 0x1.999999999999ap-3) (PyStr "median") (PyInt 200)
              PyNone PyNone [] eq_refl eq_refl eq_refl eq_refl eq_refl eq_refl)
    as [Hbad _].
  apply Hbad; [discriminate | reflexivity].
Defined.

Lemma unknown_tuner_fails_in_fit_witness :
  exists e,
    CNN.fit (Stub.estimator 3 2 (Some "grid") "mean") Stub.X_3x6 Stub.y_3 =
    raise e.
Proof.
  apply (@unknown_tuner_fails_in_fit Stub.libs (PyInt 3) (PyInt 2) (PyInt 50)
           (PyInt 32) (PyInt 1) (PyFloat 0x1.999999999999ap-3) (PyStr "mean")
           (PyInt 200) PyNone PyNone [] "grid"
           (Stub.estimator 3 2 (Some "grid") "mean") eq_refl).
  intros [H | [H | [H | []]]]; discriminate H.
Defined.

Lemma int_arguments_checked_in_order_witness :
  CNN.__init__ (L := Stub.libs) (PyInt 100) (PyFloat 2) (PyStr "many")
    (PyInt 32) PyNone (PyInt 1) (PyFloat 0x1.999999999999ap-3) (PyStr "median")
    (PyInt 200) PyNone PyNone [] =
  raise (TypeError "Parameter n_channels must be an integer.").
Proof.
  destruct (@int_arguments_checked_in_order Stub.libs (PyInt 100) (PyFloat 2)
              (PyStr "many") (PyInt 32) PyNone (PyInt 1)
              (PyFloat 0x1.999999999999ap-3) (PyStr "median") (PyInt 200)
              PyNone PyNone [] eq_refl)
    as (_ & Hchannels & _).
  apply Hchannels; reflexivity.
Defined.

Lemma random_state_checked_last_witness :
  CNN.__init__ (L := Stub.libs) (PyInt 100) (PyInt 2) (PyInt 50) (PyInt 32)
    PyNone (PyInt 1) (PyFloat 0x1.999999999999ap-3) (PyStr "median")
    (PyFloat 200) PyNone PyNone [] =
  raise (TypeError "Parameter random_state must be an int.").
Proof.
  apply (@random_state_checked_last Stub.libs); try reflexivity.
  - left; reflexivity.
  - exists "median"; split; [reflexivity | cbn; tauto].
Defined.

Lemma constructed_estimator_cannot_predict_witness :
  CNN.predict (Stub.estimator 3 2 None "mean") Stub.X_2x6 =
  raise not_fitted_error.
Proof.
  destruct (@constructed_estimator_cannot_predict Stub.libs (PyInt 3) (PyInt 2)
              (PyInt 50) (PyInt 32) PyNone (PyInt 1)
              (PyFloat 0x1.999999999999ap-3) (PyStr "mean") (PyInt 200)
              PyNone PyNone [] (Stub.estimator 3 2 None "mean") eq_refl
              Stub.X_2x6)
    as [_ Hnot].
  eapply Hnot; reflexivity.
Defined.

Lemma preprocess_rejects_other_dimensions_witness :
  CNN.predict (Stub.estimator 3 2 None "mean") Sample.X_flat =
    raise (IndexError "tuple index out of range") /\
  CNN._preprocess (Stub.estimator 3 2 None "mean") Sample.X_cube None =
    raise (ValueError "Expected X to be a 2D matrix.").
Proof.
  split.
  - destruct (@preprocess_rejects_other_dimensions Stub.libs
                (Stub.estimator 3 2 None "mean") Sample.X_flat)
      as [Hflat _].
    apply Hflat; cbn; lia.
  - destruct (@preprocess_rejects_other_dimensions Stub.libs
                (Stub.estimator 3 2 None "mean") Sample.X_cube)
      as (_ & _ & Hcube).
    apply (Hcube 6 None eq_refl eq_refl); cbn; lia.
Defined.

Lemma targets_must_match_rows_witness :
  CNN.fit (Stub.estimator 3 2 None "mean") Stub.X_3x6 [1; 2]%float =
  raise (IndexError "boolean index did not match indexed array along axis 0").
Proof.
  apply (@targets_must_match_rows Stub.libs (Stub.estimator 3 2 None "mean")
           Stub.X_3x6 [1; 2]%float 3 6 eq_refl eq_refl).
  discriminate.
Defined.

Lemma no_missing_target_keeps_all_rows_witness :
  np.getitem_rows Stub.X_2x6 (np.logical_not (np.isnan [1; 2]%float)) =
  ret Stub.X_2x6.
Proof.
  apply (@no_missing_target_keeps_all_rows Stub.libs
           (Stub.estimator 3 2 None "mean") Stub.X_2x6 [1; 2]%float 6
           eq_refl eq_refl eq_refl).
  repeat constructor.
Defined.

(** With the stand-in imputer, which refuses an empty matrix. *)
Lemma all_targets_missing_leaves_no_row_witness :
  CNN._preprocess (Stub.estimator 3 2 None "mean") Stub.X_2x6
    (Some [nan; nan]%float) =
  raise (ValueError "Found array with 0 sample(s)").
Proof.
  etransitivity;
    [ apply (@all_targets_missing_leaves_no_row Stub.libs
               (Stub.estimator 3 2 None "mean") Stub.X_2x6 [nan; nan]%float 6
               eq_refl eq_refl);
      repeat constructor
    | reflexivity ].
Defined.

Lemma to_channels_injective_witness :
  Stub.X_2x6 =
  np.mk [2; 6] (firstn 6 (np.data Stub.X_2x6) ++ skipn 6 (np.data Stub.X_2x6)).
Proof.
  apply (@to_channels_injective Stub.libs (Stub.estimator 3 2 None "mean")
           Stub.X_2x6 _ 2 6);
    [reflexivity | reflexivity | reflexivity | reflexivity | reflexivity
    | discriminate | discriminate | reflexivity].
Defined.

(** One sample: the prediction comes back without axes. *)
Lemma predict_squeezes_predictions_witness :
  CNN.predict Sample.fitted Sample.X_1x6 = ret (np.mk [] [0%float]).
Proof.
  pose proof (fun T yo =>
                @predict_squeezes_predictions Stub.libs Sample.fitted
                  Sample.X_1x6 T (np.mk [1; 1] [0%float]) yo
                  (ModelBuilder.basic_model Stub.X_2x6) 1)
    as Hsq.
  eapply Hsq; [discriminate | reflexivity | reflexivity | reflexivity
              | reflexivity].
Defined.

Lemma fit_keeps_attributes_witness :
  exists fitted,
    CNN.fit (Stub.estimator 3 2 (Some "random") "mean") Stub.X_3x6 Stub.y_3 =
      ret fitted /\
    CNN.best_hps_ fitted = None /\
    CNN.is_fitted_ fitted = Some true.
Proof.
  eexists; split; [reflexivity |].
  pose proof (fun fitted =>
                @fit_keeps_attributes Stub.libs
                  (Stub.estimator 3 2 (Some "random") "mean") fitted
                  Stub.X_3x6 Stub.y_3) as Hkeep.
  edestruct Hkeep
    as (_ & _ & _ & _ & _ & _ & _ & _ & _ & _ & _ & _ & Hhps & Hfit & _);
    [reflexivity |].
  split; [exact Hhps | exact Hfit].
Defined.

Lemma refit_starts_from_scratch_witness :
  exists fitted,
    CNN.fit (Stub.estimator 3 2 None "mean") Stub.X_3x6 Stub.y_3 = ret fitted /\
    CNN.fit fitted Stub.X_2x6 [1; 2]%float =
    CNN.fit (Stub.estimator 3 2 None "mean") Stub.X_2x6 [1; 2]%float.
Proof.
  eexists; split; [reflexivity |].
  apply (@refit_starts_from_scratch Stub.libs
           (Stub.estimator 3 2 None "mean") _ Stub.X_3x6 Stub.y_3 eq_refl).
Defined.

(** Predictions for the two targets that are present. *)
Lemma score_compares_present_targets_witness :
  CNN.score (Stub.estimator 3 2 None "mean") Stub.y_3 [1; 2]%float =
  r2 (Libs := Stub.libs) [1; 2]%float [1; 2]%float.
Proof.
  destruct (@score_compares_present_targets Stub.libs
              (Stub.estimator 3 2 None "mean") Stub.y_3 [1; 2]%float)
    as [Hsame _].
  apply Hsame; reflexivity.
Defined.

Lemma build_model_layer_counts_witness :
  length (keras.layers
            (keras.compile
               [ keras.Conv1D 32 1 "relu" (Some [3; 2]);
                 keras.Conv1D 32 1 "relu" None; keras.MaxPool1D 2 "same";
                 keras.Conv1D 32 1 "relu" None; keras.MaxPool1D 2 "same";
                 keras.Dropout 0.25; keras.Flatten;
                 keras.Dense 32 "relu" None; keras.Dropout 0.25;
                 keras.Dense 64 "relu" None; keras.Dense 1 "linear" None ]
               "mean_squared_error" "adam" ["mean_squared_error"])) = 11.
Proof.
  apply (@build_model_layer_counts Stub.libs tt 3 [3; 2] _ eq_refl).
Defined.

Lemma basic_fit_ignores_tuner_options_witness :
  match CNN.fit (Stub.estimator 3 2 None "mean") Stub.X_3x6 Stub.y_3,
        CNN.fit Sample.other_options Stub.X_3x6 Stub.y_3 with
  | inr fitted, inr fitted' => CNN.model_ fitted' = CNN.model_ fitted
  | inl e, inl e' => e' = e
  | _, _ => False
  end.
Proof.
  apply (@basic_fit_ignores_tuner_options Stub.libs
           (Stub.estimator 3 2 None "mean") Sample.other_options
           Stub.X_3x6 Stub.y_3);
    reflexivity.
Defined.

(** Without a tuner, and on inputs that are in order. *)
Lemma clashing_keyword_stops_fit_witness :
  exists msg,
    CNN.fit (Sample.with_keyword None) Stub.X_3x6 Stub.y_3 =
    raise (TypeError msg).
Proof.
  pose proof (fun T Xtr Xte y' ytr yte =>
                @clashing_keyword_stops_fit Stub.libs
                  (Sample.with_keyword None) Stub.X_3x6 T Xtr Xte Stub.y_3
                  y' ytr yte "X_test" (PyInt 0)) as Hstop.
  edestruct Hstop as [Hraise _];
    [left; reflexivity | cbn; tauto | reflexivity | reflexivity |].
  exact Hraise.
Defined.
